(** * workshop_pybrain: the notebooks and the slide deck, embedded in Rocq

    The repository holds two Jupyter notebooks ([04a_pybids.ipynb],
    [05b_machine_learning_nilearn.ipynb]) and one remark.js slide deck.
    The only function the repository defines is [get_mask]; everything
    else is top-level notebook code that binds names and calls into
    nilearn, nibabel, numpy, scipy, scikit-learn and pybids.

    Layout of the development:
    - [Numpy], [Nibabel]: the in-memory array and image operations whose
      results matter (comparison with a threshold, dtype casts, image
      construction);
    - [Py]: Python values, exceptions, insertion-ordered dictionaries;
    - [Arrays]: the [labels] and [chunks] arrays of notebook 05b;
    - [Kernel]: computations as trees of requests to external code, the
      interpreter state and the combinators used to write cells;
    - [MVPA]: notebook 05b, with [get_mask];
    - [Pybids]: notebook 04a;
    - [Slides]: the inline scripts of the slide deck;
    - [Samples]: example libraries on which the statements are run;
    - [Split], [Trace], [Partial], [Threshold], [Skip], [Analytics]:
      definitions used in the statements;
    - [ArraysFacts], [KernelFacts], [NumpyFacts], [GetMaskFacts],
      [NotebookFacts]: the theorems; a theorem that answers a claim of
      the specification names it (C1, C2, C3, C5, C7);
    - [GetMaskMore], [ThresholdFacts], [SplitFacts], [TraceFacts],
      [SkipFacts], [AnalyticsFacts]: further properties of the code
      (X1 to X19). *)

From Stdlib Require Import Bool String ZArith NArith QArith Lia Permutation.
From Stdlib Require Import List.
Import ListNotations.
Set Warnings "-register-all".
Close Scope Q_scope.
Open Scope string_scope.
Open Scope list_scope.

(* ===================================================================== *)
(** * Python values *)
(* ===================================================================== *)

Module Numpy.

(** The numpy scalar types that a NIfTI header can name, as far as the
    notebooks meet them, and their size in bytes. *)
Inductive dtype := uint8 | int8 | int16 | int32 | int64 | float32 | float64.

Definition itemsize (d : dtype) : Z :=
  match d with
  | uint8 | int8 => 1
  | int16 => 2
  | int32 | float32 => 4
  | int64 | float64 => 8
  end.

(** An IEEE double is a finite rational, an infinity or NaN.  Only the
    comparison with an integer constant is used, and that comparison is
    exact. *)
Inductive float := Finite (q : Q) | Inf (negative : bool) | NaN.

(** [x >= k] on a double; every comparison with NaN is false. *)
Definition float_ge (x : float) (k : Z) : bool :=
  match x with
  | Finite q => Qle_bool (inject_Z k) q
  | Inf negative => negb negative
  | NaN => false
  end.

(** An n-dimensional array: its shape and its elements in row-major
    (C) order. *)
Record ndarray (A : Type) := { shape : list nat; elems : list A }.
Arguments shape {A} _.
Arguments elems {A} _.

Definition map_elems {A B} (f : A -> B) (a : ndarray A) : ndarray B :=
  {| shape := shape a; elems := map f (elems a) |}.

(** [a >= k], element-wise. *)
Definition greater_equal (a : ndarray float) (k : Z) : ndarray bool :=
  map_elems (fun x => float_ge x k) a.

(** Casting a boolean to [int8]: [True] is 1 and [False] is 0. *)
Definition int8_of_bool (b : bool) : Z := if b then 1%Z else 0%Z.

(** [np.array(a, dtype=np.int8)] on a boolean array. *)
Definition array_int8 (a : ndarray bool) : ndarray Z :=
  map_elems int8_of_bool a.

(** [a.astype(np.int8)] on a boolean array. *)
Definition astype_int8 (a : ndarray bool) : ndarray Z :=
  map_elems int8_of_bool a.

End Numpy.

Module Nibabel.
Import Numpy.

(** A NIfTI header: the on-disk data type, the number of bits per voxel
    that goes with it, and the descriptive fields, which are only ever
    copied and are kept as a list of named numbers.  The fields that
    repeat the shape of the data and the affine are not part of the
    record: an image keeps them in step with its data and its affine. *)
Record header :=
  { data_dtype : dtype; bitpix : Z; fields : list (string * float) }.

(** [nb.Nifti1Image]: a data array, a 4x4 affine and a header. *)
Record image (A : Type) :=
  { dataobj : ndarray A; affine : list (list float); hdr : header }.
Arguments dataobj {A} _.
Arguments affine {A} _.
Arguments hdr {A} _.

(** [nb.Nifti1Image(data, affine, header)]: the image gets a copy of
    the header; nibabel brings the shape and affine fields of the copy
    in step with [data] and [aff], and those are not in the record. *)
Definition Nifti1Image {A} (data : ndarray A) (aff : list (list float))
           (h : header) : image A :=
  {| dataobj := data; affine := aff; hdr := h |}.

(** [img.get_fdata()]. *)
Definition get_fdata (img : image float) : ndarray float := dataobj img.

(** [img.set_data_dtype(d)]: the header gets the data type and the
    number of bits per voxel of [d]; the data array is not converted. *)
Definition set_data_dtype {A} (img : image A) (d : dtype) : image A :=
  {| dataobj := dataobj img;
     affine := affine img;
     hdr := {| data_dtype := d;
               bitpix := 8 * itemsize d;
               fields := fields (hdr img) |} |}.

End Nibabel.

Module Py.
Import Numpy Nibabel.

(** References to objects that live inside a library (estimators,
    plots, BIDS layouts, imported modules and functions, ...). *)
Definition handle := N.

Inductive value :=
| VNone
| VBool (b : bool)
| VInt (z : Z)
| VFloat (literal : string)      (* a float literal, as written *)
| VStr (s : string)              (* escapes are kept as written *)
| VList (l : list value)
| VTuple (l : list value)
| VDict (items : list (value * value))
| VSlice (start stop : option Z)
| VImage (img : image float)     (* a NIfTI image with float data *)
| VMask (img : image Z)          (* a NIfTI image with integer data *)
| VFunction (name : string)      (* made by a [def] statement *)
| VBuiltin (name : string)       (* print, len, ... *)
| VObj (h : handle).

(** [v] is the string [s].  For a value of a built-in type this is
    what [v == s] gives; for an object of a library class the answer to
    [==] is up to that class (see [Kernel.equals]). *)
Definition eq_str (v : value) (s : string) : bool :=
  match v with
  | VStr t => String.eqb t s
  | _ => false
  end.

(** Values of the built-in types, as opposed to objects of classes
    that a library defines. *)
Definition builtin_type (v : value) : bool :=
  match v with
  | VImage _ | VMask _ | VObj _ => false
  | _ => true
  end.

(** [v == k] for an integer literal. *)
Definition eq_int (v : value) (k : Z) : bool :=
  match v with
  | VInt z => Z.eqb z k
  | VBool b => Z.eqb (if b then 1 else 0) k
  | _ => false
  end.

(** [l * n] on a list. *)
Definition list_mul (l : list value) (n : Z) : list value :=
  concat (repeat l (Z.to_nat n)).

(** [range(n)]. *)
Definition range (n : Z) : list Z := map Z.of_nat (seq 0 (Z.to_nat n)).

(** Python dictionaries keep insertion order; assigning to a key that
    is present keeps its position. *)
Definition dict := list (string * value).

Fixpoint dict_get (k : string) (d : dict) : option value :=
  match d with
  | [] => None
  | (k', v) :: d' => if String.eqb k k' then Some v else dict_get k d'
  end.

Fixpoint dict_set (k : string) (v : value) (d : dict) : dict :=
  match d with
  | [] => [(k, v)]
  | (k', v') :: d' =>
      if String.eqb k k' then (k, v) :: d' else (k', v') :: dict_set k v d'
  end.

Inductive exn :=
| NameError (name : string)
| UnboundLocalError (name : string)
| TypeError (message : string)
| External (class message : string).   (* raised inside external code *)

(** What the caller of a run sees: a value, or an exception that
    nothing caught. *)
Inductive result (A : Type) :=
| Ok (a : A)
| Uncaught (e : exn).
Arguments Ok {A} a.
Arguments Uncaught {A} e.

End Py.

(* ===================================================================== *)
(** * Arrays built by notebook 05b: [labels] and [chunks] *)
(* ===================================================================== *)

Module Arrays.
Import Py.

(** [np.ravel(x)] on nested lists: the leaves, row by row. *)
Fixpoint ravel (v : value) : list value :=
  match v with
  | VList l => flat_map ravel l
  | _ => [v]
  end.

(** [a == k] for a 1-d array and an integer. *)
Definition equal_int (a : list value) (k : Z) : list value :=
  map (fun v => VBool (eq_int v k)) a.

Definition truth (v : value) : bool :=
  match v with VBool b => b | _ => false end.

(** [a[m]] for a boolean mask [m]: numpy refuses a mask whose length
    differs from the array's. *)
Definition take_mask (a m : list value) : option (list value) :=
  if Nat.eqb (length a) (length m)
  then Some (map fst (filter (fun p => truth (snd p)) (combine a m)))
  else None.

(** [[[['closed'] * 4, ['open'] * 4] for i in range(48)]] *)
Definition labels_nested : value :=
  VList (map (fun _ : Z =>
                VList [VList (list_mul [VStr "closed"] 4);
                       VList (list_mul [VStr "open"] 4)])
             (range 48)).

(** [[[i] * 64 for i in range(6)]] *)
Definition chunks_nested : value :=
  VList (map (fun i : Z => VList (list_mul [VInt i] 64)) (range 6)).

(** [labels = np.ravel(...)], [chunks = np.ravel(...)] *)
Definition labels : list value := ravel labels_nested.
Definition chunks : list value := ravel chunks_nested.

(** How often the string [s] occurs in an array. *)
Definition count_str (s : string) (a : list value) : nat :=
  length (filter (fun v => eq_str v s) a).

(** The labels of the volumes of chunk [c]: [labels[chunks == c]]. *)
Definition labels_of_chunk (c : Z) : option (list value) :=
  take_mask labels (equal_int chunks c).

(** One block of the design: four volumes with eyes closed, then four
    with eyes open. *)
Definition block : list value :=
  repeat (VStr "closed") 4 ++ repeat (VStr "open") 4.

Fixpoint nondecreasing (l : list Z) : bool :=
  match l with
  | x :: ((y :: _) as r) => Z.leb x y && nondecreasing r
  | _ => true
  end.

Definition int_of (v : value) : option Z :=
  match v with VInt z => Some z | _ => None end.

Fixpoint ints_of (a : list value) : option (list Z) :=
  match a with
  | [] => Some []
  | v :: r =>
      match int_of v, ints_of r with
      | Some z, Some zs => Some (z :: zs)
      | _, _ => None
      end
  end.

End Arrays.

(* ===================================================================== *)
(** * The interpreter: state, external code, statements *)
(* ===================================================================== *)

Module Kernel.
Import Numpy Nibabel Py.

(** Requests to code outside the repository (libraries, the Python
    runtime, IPython).  The index is the type of the answer. *)
Inductive ext : Type -> Type :=
| Import (module : string) (name : option string) : ext handle
| Magic (line : string) : ext unit
| Display (v : value) : ext unit
| Call (callee : value) (args : list value)
       (kwargs : list (string * value)) : ext handle
| GetAttr (obj : value) (attr : string) : ext handle
| GetItem (obj key : value) : ext handle
| BinOp (symbol : string) (a b : value) : ext handle
| Truth (v : value) : ext bool
| ResampleToImg (source target : value) : ext (image float)
| MathImg (formula : string) (imgs : list (string * value))
  : ext (image float)
| BinaryDilation (input : ndarray Z) (iterations : Z) : ext (ndarray bool).

(** A computation is a tree: it is done, it raises, or it makes a
    request and goes on with the answer.  No node catches. *)
Inductive prog (A : Type) : Type :=
| Ret (a : A)
| Raise (e : exn)
| Request (X : Type) (e : ext X) (k : X -> prog A).
Arguments Ret {A} a.
Arguments Raise {A} e.
Arguments Request {A X} e k.

Fixpoint pbind {A B} (p : prog A) (f : A -> prog B) : prog B :=
  match p with
  | Ret a => f a
  | Raise e => Raise e
  | Request e k => Request e (fun x => pbind (k x) f)
  end.

(** External code either returns or throws an exception of some class. *)
Inductive answer (A : Type) :=
| Returns (a : A)
| Throws (class message : string).
Arguments Returns {A} a.
Arguments Throws {A} class message.

(** The behaviour of everything external during one run: the answer to
    the n-th request.  The index n lets external code be stateful. *)
Definition library := forall X : Type, N -> ext X -> answer X.

(** A library that answers every request. *)
Definition never_throws (lib : library) : Prop :=
  forall X n (e : ext X), exists x, lib X n e = Returns x.

(** Running a computation against a library, from request number [n]:
    the result and the number of the next request.  An exception thrown
    by the library ends the run and is the run's result. *)
Fixpoint interp {A} (lib : library) (n : N) (p : prog A) : result (A * N) :=
  match p with
  | Ret a => Ok (a, n)
  | Raise e => Uncaught e
  | Request e k =>
      match lib _ n e with
      | Returns x => interp lib (N.succ n) (k x)
      | Throws c m => Uncaught (External c m)
      end
  end.

(** The requests made during a run, each with its number, in order. *)
Inductive request := Asked (X : Type) (n : N) (e : ext X).
Arguments Asked {X} n e.

Fixpoint requests {A} (lib : library) (n : N) (p : prog A) : list request :=
  match p with
  | Ret _ | Raise _ => []
  | Request e k =>
      Asked n e ::
      match lib _ n e with
      | Returns x => requests lib (N.succ n) (k x)
      | Throws _ _ => []
      end
  end.

(** The answered requests of a run, each with its answer, in order. *)
Inductive event := Answered (X : Type) (e : ext X) (x : X).
Arguments Answered {X} e x.

Fixpoint history {A} (lib : library) (n : N) (p : prog A) : list event :=
  match p with
  | Ret _ | Raise _ => []
  | Request e k =>
      match lib _ n e with
      | Returns x => Answered e x :: history lib (N.succ n) (k x)
      | Throws _ _ => []
      end
  end.

Definition returned (lib : library) (r : request) : Prop :=
  match r with Asked n e => exists x, lib _ n e = Returns x end.

Definition threw (lib : library) (c m : string) (r : request) : Prop :=
  match r with Asked n e => lib _ n e = Throws c m end.

(** The interpreter state: the notebook's global namespace and a
    record of the calls to functions defined in the notebook. *)
Record state := { globals : dict; calls : list (string * list value) }.

Definition init : state := {| globals := []; calls := [] |}.

(** Statements and expressions run in a state. *)
Definition M (A : Type) := state -> prog (A * state).

Definition ret {A} (a : A) : M A := fun st => Ret (a, st).

Definition bind {A B} (m : M A) (k : A -> M B) : M B :=
  fun st => pbind (m st) (fun r => k (fst r) (snd r)).

Definition raise {A} (e : exn) : M A := fun _ => Raise e.

Declare Scope py_scope.
Delimit Scope py_scope with py.
Notation "x <- m ;; k" := (bind m (fun x => k))
  (at level 61, m at next level, right associativity) : py_scope.
Notation "m ;; k" := (bind m (fun _ => k))
  (at level 61, right associativity) : py_scope.
Local Open Scope py_scope.

Definition builtins : list string := ["print"; "len"].

(** Reading a global name: the module namespace, then the builtins. *)
Definition load (name : string) : M value :=
  fun st =>
    match dict_get name (globals st) with
    | Some v => Ret (v, st)
    | None =>
        if existsb (String.eqb name) builtins
        then Ret (VBuiltin name, st)
        else Raise (NameError name)
    end.

Definition store (name : string) (v : value) : M unit :=
  fun st =>
    Ret (tt, {| globals := dict_set name v (globals st);
                calls := calls st |}).

(** Reading a local variable of a function: it raises when no
    assignment to it has run. *)
Definition load_local {A} (name : string) (v : option A) : M A :=
  match v with
  | Some a => ret a
  | None => raise (UnboundLocalError name)
  end.

Definition record_call (f : string) (args : list value) : M unit :=
  fun st =>
    Ret (tt, {| globals := globals st;
                calls := calls st ++ [(f, args)] |}).

(** One request to external code. *)
Definition extern {X} (e : ext X) : M X :=
  fun st => Request e (fun x => Ret (x, st)).

(** The functions defined by [def] statements of a notebook. *)
Definition functions :=
  list (string * (list value -> list (string * value) -> M value)).

Fixpoint find_function (name : string) (fs : functions) :=
  match fs with
  | [] => None
  | (n, body) :: fs' =>
      if String.eqb name n then Some body else find_function name fs'
  end.

(** Expressions: each evaluates to a value, left to right. *)
Definition lit (v : value) : M value := ret v.
Definition str (s : string) : M value := ret (VStr s).
Definition int (z : Z) : M value := ret (VInt z).
Definition flt (literal : string) : M value := ret (VFloat literal).
Definition boolean (b : bool) : M value := ret (VBool b).
Definition name (n : string) : M value := load n.

Fixpoint eval_list (es : list (M value)) : M (list value) :=
  match es with
  | [] => ret []
  | e :: es' => v <- e ;; vs <- eval_list es' ;; ret (v :: vs)
  end.

Fixpoint eval_kwargs (es : list (string * M value))
  : M (list (string * value)) :=
  match es with
  | [] => ret []
  | (k, e) :: es' => v <- e ;; vs <- eval_kwargs es' ;; ret ((k, v) :: vs)
  end.

Fixpoint eval_items (es : list (M value * M value))
  : M (list (value * value)) :=
  match es with
  | [] => ret []
  | (k, e) :: es' =>
      kv <- k ;; v <- e ;; vs <- eval_items es' ;; ret ((kv, v) :: vs)
  end.

Definition list_ (es : list (M value)) : M value :=
  vs <- eval_list es ;; ret (VList vs).

Definition tuple_ (es : list (M value)) : M value :=
  vs <- eval_list es ;; ret (VTuple vs).

Definition dict_ (es : list (M value * M value)) : M value :=
  vs <- eval_items es ;; ret (VDict vs).

(** Applying a value: a notebook function runs its body, anything
    else is a request to external code. *)
Definition apply_value (fs : functions) (callee : value)
           (args : list value) (kwargs : list (string * value)) : M value :=
  match callee with
  | VFunction f =>
      match find_function f fs with
      | Some body => record_call f args ;; body args kwargs
      | None => raise (NameError f)
      end
  | _ => h <- extern (Call callee args kwargs) ;; ret (VObj h)
  end.

(** [f(a1, ..., k1=b1, ...)] *)
Definition call (fs : functions) (f : M value) (args : list (M value))
           (kwargs : list (string * M value)) : M value :=
  callee <- f ;;
  vs <- eval_list args ;;
  kvs <- eval_kwargs kwargs ;;
  apply_value fs callee vs kvs.

(** [e.attr] *)
Definition attr (e : M value) (a : string) : M value :=
  v <- e ;; h <- extern (GetAttr v a) ;; ret (VObj h).

(** [e[key]] *)
Definition subscript (e key : M value) : M value :=
  v <- e ;; k <- key ;; h <- extern (GetItem v k) ;; ret (VObj h).

(** [a op b] for an operator that the operands' classes implement. *)
Definition binop (symbol : string) (a b : M value) : M value :=
  x <- a ;; y <- b ;; h <- extern (BinOp symbol x y) ;; ret (VObj h).

(** [v == 'literal'] followed by the truth test of an [if].  Between
    values of built-in types the comparison is Python's own; an object
    of a library class answers through its [__eq__], and what comes back
    is tested through its [__bool__]. *)
Definition equals (v : value) (s : string) : M bool :=
  if builtin_type v then ret (eq_str v s)
  else h <- extern (BinOp "==" v (VStr s)) ;; extern (Truth (VObj h)).

(** Statements. *)
Definition assign (target : string) (e : M value) : M unit :=
  v <- e ;; store target v.

Definition expr (e : M value) : M unit := e ;; ret tt.

(** The last expression of a cell is evaluated and displayed. *)
Definition show (e : M value) : M unit :=
  v <- e ;; extern (Display v).

Definition magic (line : string) : M unit := extern (Magic line).

(** [import module as target] *)
Definition import_as (module target : string) : M unit :=
  h <- extern (Import module None) ;; store target (VObj h).

(** [from module import target] *)
Definition from_import (module target : string) : M unit :=
  h <- extern (Import module (Some target)) ;; store target (VObj h).

(** [def f(...)]: binds the name to the function object. *)
Definition def (f : string) : M unit := store f (VFunction f).

(** A notebook is run cell by cell, in order; the first exception ends
    the run. *)
Fixpoint run (cells : list (M unit)) : M unit :=
  match cells with
  | [] => ret tt
  | c :: cells' => c ;; run cells'
  end.

(** Running the cells of a notebook in a fresh kernel. *)
Definition exec (lib : library) (cells : list (M unit)) : result state :=
  match interp lib 0 (run cells init) with
  | Ok (_, st, _) => Ok st
  | Uncaught e => Uncaught e
  end.

(** What holds after a computation, whatever external code answers;
    false as soon as the computation itself can raise. *)
Fixpoint wp {A} (Q : A -> Prop) (p : prog A) : Prop :=
  match p with
  | Ret a => Q a
  | Raise _ => False
  | Request e k => forall x, wp Q (k x)
  end.

(** The same, for a property of the answered requests and the result;
    [past] holds the answered requests so far, latest first. *)
Fixpoint wpt {A} (Q : list event -> A -> Prop) (past : list event)
         (p : prog A) : Prop :=
  match p with
  | Ret a => Q (rev past) a
  | Raise _ => False
  | Request e k => forall x, wpt Q (Answered e x :: past) (k x)
  end.

(** The run imports [name] from [module] and calls what it got. *)
Definition calls_imported (module name : string) (tr : list event) : Prop :=
  exists h args kwargs r,
    In (Answered (Import module (Some name)) h) tr
    /\ In (Answered (Call (VObj h) args kwargs) r) tr.

End Kernel.

(* ===================================================================== *)
(** * Notebook 05b_machine_learning_nilearn.ipynb *)
(* ===================================================================== *)

Module MVPA.
Import Numpy Nibabel Py Kernel.
Local Open Scope py_scope.

Definition mask_types : list string := ["brain"; "eyes"; "both"].

(** [mask_type] is one of 'brain', 'eyes', 'both'. *)
Definition valid_mask_type (mask_type : value) : bool :=
  existsb (eq_str mask_type) mask_types.

Definition brain_template : value :=
  VStr "/home/neuro/workshop/notebooks/data/templates/MNI152_T1_1mm_brain.nii.gz".
Definition eyes_template : value :=
  VStr "/home/neuro/workshop/notebooks/data/templates/MNI152_T1_1mm_eye.nii.gz".

(** [def get_mask(mask_type)] *)
(** The three ways in which [get_mask] gets [img_resampled]. *)
Definition resample_brain : M (option (image float)) :=
  (* img_resampled = resample_to_img(brain, func) *)
  load "resample_to_img" ;;
  func <- load "func" ;;
  img <- extern (ResampleToImg brain_template func) ;;
  ret (Some img).

Definition resample_eyes : M (option (image float)) :=
  (* img_resampled = resample_to_img(eyes, func) *)
  load "resample_to_img" ;;
  func <- load "func" ;;
  img <- extern (ResampleToImg eyes_template func) ;;
  ret (Some img).

Definition resample_both : M (option (image float)) :=
  (* img_roi = math_img("img1 + img2", img1=brain, img2=eyes) *)
  load "math_img" ;;
  img_roi <- extern (MathImg "img1 + img2"
                                 [("img1", brain_template);
                                  ("img2", eyes_template)]) ;;
  (* img_resampled = resample_to_img(img_roi, func) *)
  load "resample_to_img" ;;
  func <- load "func" ;;
  img <- extern (ResampleToImg (VImage img_roi) func) ;;
  ret (Some img).

(** [def get_mask(mask_type)].  The modules [np] and [nb] are read from
    the global namespace and their attributes through requests, as in
    the cells; what numpy and nibabel then compute on the arrays in
    memory is given by [Numpy] and [Nibabel]. *)
Definition get_mask (mask_type : value) : M value :=
  (* Load region of interest: [img_resampled] is assigned in the
     three branches and nowhere else *)
  img_resampled <-
    (is_brain <- equals mask_type "brain" ;;
     if is_brain then resample_brain
     else
       is_eyes <- equals mask_type "eyes" ;;
       if is_eyes then resample_eyes
       else
         is_both <- equals mask_type "both" ;;
         if is_both then resample_both
         else ret None) ;;
  (* Binarize ROI template:
     data_binary = np.array(img_resampled.get_fdata()>=10, dtype=np.int8) *)
  attr (name "np") "array" ;;
  img <- load_local "img_resampled" img_resampled ;;
  attr (name "np") "int8" ;;
  let data_binary := array_int8 (greater_equal (get_fdata img) 10) in
  (* Dilate binary mask once:
     data_dilated = binary_dilation(data_binary, iterations=1).astype(np.int8) *)
  load "binary_dilation" ;;
  dilated <- extern (BinaryDilation data_binary 1) ;;
  attr (name "np") "int8" ;;
  let data_dilated := astype_int8 dilated in
  (* Save binary mask in NIfTI image:
     mask = nb.Nifti1Image(data_dilated, img_resampled.affine,
                           img_resampled.header) *)
  attr (name "nb") "Nifti1Image" ;;
  let mask := Nifti1Image data_dilated (affine img) (hdr img) in
  (* mask.set_data_dtype('i1') *)
  let mask := set_data_dtype mask int8 in
  ret (VMask mask).

(** Binding of the arguments of a call to the one parameter. *)
Definition get_mask_entry (args : list value)
           (kwargs : list (string * value)) : M value :=
  match args, kwargs with
  | [mask_type], [] => get_mask mask_type
  | [], [("mask_type", mask_type)] => get_mask mask_type
  | _, _ => raise (TypeError "get_mask() takes 1 positional argument")
  end.

Definition defs : functions := [("get_mask", get_mask_entry)].

Local Abbreviation call := (Kernel.call defs).

(** [math_img(formula, **imgs)] *)
Definition math_img (formula : string) (imgs : list (string * M value))
  : M value :=
  load "math_img" ;;
  kvs <- eval_kwargs imgs ;;
  img <- extern (MathImg formula kvs) ;;
  ret (VImage img).

Definition cell_02 : M unit :=
  from_import "nilearn" "plotting" ;;
  magic "%matplotlib inline" ;;
  import_as "numpy" "np" ;;
  import_as "nibabel" "nb".

Definition cell_04 : M unit :=
  assign "func"
         (str "/home/neuro/workshop/notebooks/data/dataset_ML.nii.gz") ;;
  magic "!nib-ls $func".

Definition cell_06 : M unit :=
  from_import "nilearn.image" "resample_to_img" ;;
  from_import "nilearn.image" "math_img" ;;
  from_import "scipy.ndimage" "binary_dilation" ;;
  def "get_mask".

Definition cell_08 : M unit :=
  from_import "nilearn.plotting" "plot_roi".

Definition cell_09 : M unit :=
  assign "anat"
         (str "/home/neuro/workshop/notebooks/data/templates/MNI152_T1_1mm.nii.gz") ;;
  assign "mask" (call (name "get_mask") [str "both"] []) ;;
  show (call (name "plot_roi") [name "mask"; name "anat"]
             [("cmap", str "Paired"); ("dim", flt "-.5");
              ("draw_cross", boolean false);
              ("annotate", boolean false)]).

Definition cell_11 : M unit :=
  from_import "nilearn.input_data" "NiftiMasker" ;;
  assign "masker"
         (call (name "NiftiMasker") []
               [("mask_img", name "mask");
                ("standardize", boolean false);
                ("detrend", boolean false);
                ("memory", str "nilearn_cache");
                ("memory_level", int 2)]) ;;
  assign "samples"
         (call (attr (name "masker") "fit_transform") [name "func"] []) ;;
  expr (call (name "print") [name "samples"] []).

Definition cell_13 : M unit :=
  expr (call (name "print") [attr (name "samples") "shape"] []).

Definition cell_15 : M unit :=
  assign "masked_epi"
         (call (attr (name "masker") "inverse_transform")
               [name "samples"] []).

Definition cell_17 : M unit :=
  from_import "nilearn.image" "math_img" ;;
  from_import "nilearn.plotting" "plot_stat_map" ;;
  assign "max_zscores"
         (math_img "np.abs(img).max(axis=3)"
                   [("img", name "masked_epi")]) ;;
  show (call (name "plot_stat_map") [name "max_zscores"]
             [("bg_img", name "anat"); ("dim", flt "-.5");
              ("cut_coords", list_ [int 33; int (-20); int 20]);
              ("draw_cross", boolean false);
              ("annotate", boolean false);
              ("colorbar", boolean false);
              ("title", str "Maximum Amplitude per Voxel in Mask")]).

Definition cell_19 : M unit :=
  assign "labels"
         (call (attr (name "np") "ravel")
               [lit Arrays.labels_nested] []) ;;
  show (subscript (name "labels") (lit (VSlice None (Some 20%Z)))).

Definition cell_21 : M unit :=
  assign "chunks"
         (call (attr (name "np") "ravel")
               [lit Arrays.chunks_nested] []) ;;
  show (subscript (name "chunks") (lit (VSlice None (Some 100%Z)))).

Definition cell_23 : M unit :=
  from_import "sklearn.svm" "LinearSVC" ;;
  assign "clf"
         (call (name "LinearSVC") []
               [("penalty", str "l2"); ("loss", str "squared_hinge");
                ("max_iter", int 25)]).

(** [cross_val_score(estimator=clf, X=samples, y=labels, groups=chunks,
    cv=LeaveOneGroupOut(), n_jobs=..., verbose=1)] *)
Definition cross_validate (n_jobs : Z) : M value :=
  call (name "cross_val_score") []
       [("estimator", name "clf"); ("X", name "samples");
        ("y", name "labels"); ("groups", name "chunks");
        ("cv", call (name "LeaveOneGroupOut") [] []);
        ("n_jobs", int n_jobs); ("verbose", int 1)].

Definition cell_25 : M unit :=
  from_import "sklearn.model_selection" "LeaveOneGroupOut" ;;
  from_import "sklearn.model_selection" "cross_val_score" ;;
  assign "cv_scores" (cross_validate (-1)).

(** The two [print] statements that follow each cross-validation. *)
Definition print_scores : M unit :=
  expr (call (name "print")
             [binop "%" (str "Average accuracy = %.02f percent\n")
                    (binop "*"
                           (call (attr (name "cv_scores") "mean") [] [])
                           (int 100))] []) ;;
  expr (call (name "print")
             [str "Accuracy per fold:"; name "cv_scores"]
             [("sep", str "\n")]).

Definition cell_27 : M unit := print_scores.

Definition cell_29 : M unit :=
  from_import "sklearn.naive_bayes" "GaussianNB" ;;
  assign "clf" (call (name "GaussianNB") [] []).

Definition cell_30 : M unit := assign "cv_scores" (cross_validate 1).

Definition cell_31 : M unit := print_scores.

Definition cell_33 : M unit :=
  from_import "sklearn.linear_model" "LogisticRegression" ;;
  assign "clf"
         (call (name "LogisticRegression") []
               [("penalty", str "l2"); ("max_iter", int 25)]).

Definition cell_34 : M unit := assign "cv_scores" (cross_validate (-1)).

Definition cell_35 : M unit := print_scores.

Definition cell_39 : M unit :=
  from_import "sklearn.naive_bayes" "GaussianNB" ;;
  assign "clf" (call (name "GaussianNB") [] []).

Definition cell_40 : M unit :=
  from_import "sklearn.model_selection" "permutation_test_score".

Definition cell_41 : M unit :=
  assign "null_cv_scores"
         (call (name "permutation_test_score") []
               [("estimator", name "clf"); ("X", name "samples");
                ("y", name "labels"); ("groups", name "chunks");
                ("cv", call (name "LeaveOneGroupOut") [] []);
                ("n_permutations", int 25);
                ("n_jobs", int (-1)); ("verbose", int 1)]).

Definition cell_43 : M unit :=
  expr (call (name "print")
             [binop "%" (str "Prediction accuracy: %.02f")
                    (binop "*"
                           (subscript (name "null_cv_scores") (int 0))
                           (int 100));
              binop "%" (str "p-value: %.04f")
                    (subscript (name "null_cv_scores") (int 2))]
             [("sep", str "\n")]).

Definition cell_47 : M unit :=
  assign "mask_test" (binop "==" (name "chunks") (int 5)) ;;
  assign "mask_train"
         (call (attr (name "np") "invert") [name "mask_test"] []).

Definition cell_48 : M unit :=
  from_import "nilearn.image" "index_img" ;;
  assign "X_train"
         (call (name "index_img") [name "func"; name "mask_train"] []) ;;
  assign "y_train" (subscript (name "labels") (name "mask_train")) ;;
  assign "X_test"
         (call (name "index_img") [name "func"; name "mask_test"] []) ;;
  assign "y_test" (subscript (name "labels") (name "mask_test")).

Definition cell_50 : M unit :=
  from_import "nilearn.decoding" "SpaceNetClassifier" ;;
  assign "decoder"
         (call (name "SpaceNetClassifier") []
               [("penalty", str "tv-l1");
                ("mask", call (name "get_mask") [str "both"] []);
                ("max_iter", int 10); ("cv", int 5);
                ("standardize", boolean true);
                ("memory", str "nilearn_cache");
                ("memory_level", int 2); ("verbose", int 1)]) ;;
  show (call (attr (name "decoder") "fit")
             [name "X_train"; name "y_train"] []).

Definition cell_52 : M unit :=
  assign "y_pred"
         (call (attr (name "decoder") "predict") [name "X_test"] []).

Definition cell_53 : M unit :=
  assign "accuracy"
         (binop "*"
                (call (attr (binop "==" (name "y_pred") (name "y_test"))
                            "mean") [] [])
                (flt "100.")) ;;
  expr (call (name "print")
             [binop "%" (str "\nTV-l1  classification accuracy : %g%%")
                    (name "accuracy")] []).

Definition cell_55 : M unit :=
  from_import "nilearn.plotting" "plot_stat_map" ;;
  from_import "nilearn.plotting" "show" ;;
  assign "coef_img" (attr (name "decoder") "coef_img_").

Definition cell_56 : M unit :=
  from_import "nilearn.plotting" "plot_glass_brain" ;;
  show (call (name "plot_glass_brain") [name "coef_img"]
             [("black_bg", boolean true); ("colorbar", boolean true);
              ("display_mode", str "lyrz");
              ("symmetric_cbar", boolean false);
              ("cmap", str "magma");
              ("title", binop "%" (str "graph-net: accuracy %g%%")
                              (name "accuracy"))]).

Definition cell_59 : M unit :=
  from_import "nilearn.decoding" "SearchLight".

Definition cell_60 : M unit :=
  assign "mask" (call (name "get_mask") [str "both"] []).

Definition cell_61 : M unit :=
  assign "clf" (call (name "GaussianNB") [] []).

Definition cell_62 : M unit := assign "sphere_radius" (int 8).

Definition cell_64 : M unit :=
  assign "sl"
         (call (name "SearchLight") [name "mask"]
               [("process_mask_img", name "mask");
                ("radius", name "sphere_radius");
                ("estimator", name "clf");
                ("cv", call (name "LeaveOneGroupOut") [] []);
                ("n_jobs", int (-1)); ("verbose", int 1)]).

Definition cell_65 : M unit :=
  show (call (attr (name "sl") "fit")
             [call (attr (name "nb") "load") [name "func"] [];
              name "labels"]
             [("groups", name "chunks")]).

Definition cell_67 : M unit :=
  from_import "nilearn.image" "new_img_like" ;;
  assign "searchlight_img"
         (call (name "new_img_like")
               [name "func"; attr (name "sl") "scores_"] []).

Definition cell_69 : M unit :=
  from_import "nilearn.plotting" "plot_glass_brain" ;;
  show (call (name "plot_glass_brain") [name "searchlight_img"]
             [("black_bg", boolean true); ("colorbar", boolean true);
              ("display_mode", str "lyrz"); ("threshold", flt "0.6");
              ("cmap", str "magma");
              ("title", str "Searchlight Prediction Accuracy")]).

(** The statement ends with a semicolon: nothing is displayed. *)
Definition cell_70 : M unit :=
  from_import "nilearn.plotting" "plot_stat_map" ;;
  expr (call (name "plot_stat_map") [name "searchlight_img"]
             [("cmap", str "magma"); ("bg_img", name "anat");
              ("colorbar", boolean true); ("display_mode", str "x");
              ("threshold", flt "0.6");
              ("cut_coords", list_ [int 0; int 6; int 12; int 18]);
              ("title", str "Searchlight Prediction Accuracy")]).

(** The code cells, in notebook order. *)
Definition cells : list (M unit) :=
  [cell_02; cell_04; cell_06; cell_08; cell_09; cell_11; cell_13;
   cell_15; cell_17; cell_19; cell_21; cell_23; cell_25; cell_27;
   cell_29; cell_30; cell_31; cell_33; cell_34; cell_35; cell_39;
   cell_40; cell_41; cell_43; cell_47; cell_48; cell_50; cell_52;
   cell_53; cell_55; cell_56; cell_59; cell_60; cell_61; cell_62;
   cell_64; cell_65; cell_67; cell_69; cell_70].

(** [name] is bound in the global namespace. *)
Definition bound (name : string) (st : state) : bool :=
  match dict_get name (globals st) with
  | Some _ => true
  | None => false
  end.


(** The binarized template: 1 where the voxel is at least 10. *)
Definition binarize (img : image float) : ndarray Z :=
  array_int8 (greater_equal (get_fdata img) 10).

(** The arguments of the calls to [get_mask] made during a run. *)
Definition get_mask_arguments (st : state) : list (list value) :=
  map snd (filter (fun c => String.eqb (fst c) "get_mask") (calls st)).

End MVPA.

(* ===================================================================== *)
(** * Notebook 04a_pybids.ipynb *)
(* ===================================================================== *)

Module Pybids.
Import Py Kernel.
Local Open Scope py_scope.

(** The notebook defines no function. *)
Local Abbreviation call := (Kernel.call []).

(** [obj.method(args, kwargs)] *)
Definition method (obj : M value) (m : string) (args : list (M value))
           (kwargs : list (string * M value)) : M value :=
  call (attr obj m) args kwargs.

Definition t1w_file : string :=
  "/sub-01/ses-test/anat/sub-01_ses-test_T1w.nii.gz".

Definition cell_01 : M unit :=
  from_import "bids" "BIDSLayout" ;;
  from_import "bids.tests" "get_test_data_path" ;;
  import_as "os" "os".

Definition cell_03 : M unit :=
  assign "data_path" (str "/data/ds000114/") ;;
  assign "layout" (call (name "BIDSLayout") [name "data_path"] []) ;;
  show (name "layout").

Definition cell_05 : M unit :=
  assign "all_files" (method (name "layout") "get" [] []) ;;
  expr (call (name "print")
             [method (str "There are {} files in the layout.") "format"
                     [call (name "len") [name "all_files"] []] []] []) ;;
  expr (call (name "print") [str "\nThe first 10 files are:"] []) ;;
  show (subscript (name "all_files") (lit (VSlice None (Some 10%Z)))).

Definition cell_07 : M unit :=
  show (subscript (method (name "layout") "get" []
                          [("return_type", str "filename")])
                  (lit (VSlice None (Some 10%Z)))).

Definition cell_08 : M unit :=
  show (method (name "layout") "get_subjects" [] []).

Definition cell_09 : M unit :=
  show (method (name "layout") "get_tasks" [] []).

Definition cell_10 : M unit :=
  show (method (name "layout") "get_entities" [] []).

Definition cell_12 : M unit :=
  show (method (name "layout") "get" []
               [("subject", str "01"); ("extension", str "nii.gz");
                ("suffix", str "bold"); ("return_type", str "filename")]).

Definition cell_13 : M unit :=
  show (method (name "layout") "get" []
               [("subject", str "02"); ("return_type", str "file");
                ("task", str "linebisection")]).

Definition cell_15 : M unit :=
  show (method (name "layout") "get" []
               [("subject", list_ [str "01"; str "02"]);
                ("SamplingFrequency", int 100);
                ("acquisition", str "prefrontal")]).

Definition cell_17 : M unit :=
  show (method (name "layout") "get" []
               [("return_type", str "id"); ("target", str "subject");
                ("suffix", str "T1w")]).

Definition cell_19 : M unit :=
  show (method (name "layout") "get" []
               [("return_type", str "dir"); ("target", str "subject")]).

Definition cell_22 : M unit :=
  assign "bf" (subscript (method (name "layout") "get" [] []) (int 15)) ;;
  show (name "bf").

Definition cell_24 : M unit :=
  show (method (name "bf") "get_entities" [] []).

Definition cell_25 : M unit :=
  show (method (name "bf") "get_metadata" [] []).

Definition cell_26 : M unit :=
  show (method (name "bf") "get_entities" [] [("metadata", str "all")]).

Definition cell_28 : M unit :=
  show (method (name "bf") "get_associations" [] []).

Definition cell_30 : M unit :=
  assign "data_path"
         (method (attr (name "os") "path") "join"
                 [call (name "get_test_data_path") [] []; str "synthetic"]
                 []) ;;
  assign "layout2" (call (name "BIDSLayout") [name "data_path"] []) ;;
  assign "recfile"
         (subscript (method (name "layout2") "get" []
                            [("suffix", str "physio")])
                    (int 0)) ;;
  assign "df" (method (name "recfile") "get_df" [] []) ;;
  show (method (name "df") "head" [] []).

Definition cell_32 : M unit :=
  show (method (method (name "recfile") "get_df" []
                       [("include_timing", boolean false)])
               "head" [] []).

Definition cell_34 : M unit :=
  assign "path"
         (str "/a/fake/path/to/a/BIDS/file/sub-01_run-1_T2w.nii.gz") ;;
  show (method (name "layout") "parse_file_entities" [name "path"] []).

Definition cell_36 : M unit :=
  assign "entities"
         (dict_ [(str "subject", str "01"); (str "run", int 2);
                 (str "task", str "nback"); (str "suffix", str "bold")]) ;;
  show (method (name "layout") "build_path" [name "entities"] []).

(** The trailing comma makes [pattern] a one-element tuple. *)
Definition cell_38 : M unit :=
  assign "pattern"
         (tuple_ [str "sub-{subject}[_ses-{session}]_task-{task}[_acq-{acquisition}][_rec-{reconstruction}][_run-{run}][_echo-{echo}]_{suffix<z>}.nii.gz"]) ;;
  assign "entities"
         (dict_ [(str "subject", str "01"); (str "run", int 2);
                 (str "task", str "n-back"); (str "suffix", str "z")]) ;;
  show (method (name "layout") "build_path"
               [name "entities"; name "pattern"] []).

Definition cell_40 : M unit :=
  assign "df" (method (name "layout") "to_df" [] []) ;;
  show (method (name "df") "head" [] []).

Definition cell_42 : M unit :=
  show (method (method (name "layout") "to_df" []
                       [("metadata", boolean true)])
               "head" [] []).

Definition cell_44 : M unit :=
  from_import "bids" "BIDSValidator" ;;
  assign "validator" (call (name "BIDSValidator") [] []) ;;
  show (method (name "validator") "is_bids" [str t1w_file] []).

Definition cell_45 : M unit :=
  show (method (name "validator") "is_file" [str t1w_file] []).

Definition cell_46 : M unit :=
  show (method (name "validator") "is_top_level"
               [str "/dataset_description.json"] []).

Definition cell_47 : M unit :=
  show (method (name "validator") "is_subject_level"
               [str "/dataset_description.json"] []).

Definition cell_48 : M unit :=
  show (method (name "validator") "is_session_level"
               [str "/sub-01/ses-test/anat/sub-01_ses-test_T1w.json"] []).

Definition cell_49 : M unit :=
  show (method (name "validator") "is_phenotypic" [str t1w_file] []).

(** The code cells, in notebook order. *)
Definition cells : list (M unit) :=
  [cell_01; cell_03; cell_05; cell_07; cell_08; cell_09; cell_10;
   cell_12; cell_13; cell_15; cell_17; cell_19; cell_22; cell_24;
   cell_25; cell_26; cell_28; cell_30; cell_32; cell_34; cell_36;
   cell_38; cell_40; cell_42; cell_44; cell_45; cell_46; cell_47;
   cell_48; cell_49].

End Pybids.

Module Workshop.
Import Py Kernel.

(** The two notebooks of the repository. *)
Definition notebooks : list (list (M unit)) := [MVPA.cells; Pybids.cells].

(** The argument list of a call [get_mask('both')]. *)
Definition both : list value := [VStr "both"].

End Workshop.

(* ===================================================================== *)
(** * The slide deck: its script elements *)
(* ===================================================================== *)

Module Slides.

(** JavaScript values, as far as the inline scripts use them. *)
Inductive js :=
| Undefined
| JBool (b : bool)
| JStr (s : string)
| JArray (items : list js)
| JObject (fields : list (string * js))
| JHost (id : N).   (* an object made by remark: an engine, a slideshow *)

(** A [<script>] element; inline scripts have no [src]. *)
Record script := { src : option string }.

(** The state the scripts act on: [document.scripts] in document
    order, and the global variables. *)
Record page := { scripts : list script; window : list (string * js) }.

(** What remark-latest.min.js provides when it has loaded. *)
Record remark_api := { engine : js; create : js -> js }.

Fixpoint get (k : string) (w : list (string * js)) : option js :=
  match w with
  | [] => None
  | (k', v) :: w' => if String.eqb k k' then Some v else get k w'
  end.

Fixpoint set (k : string) (v : js) (w : list (string * js)) :=
  match w with
  | [] => [(k, v)]
  | (k', v') :: w' =>
      if String.eqb k k' then (k, v) :: w' else (k', v') :: set k v w'
  end.

Definition truthy (v : js) : bool :=
  match v with
  | Undefined => false
  | JBool b => b
  | JStr s => negb (String.eqb s "")
  | _ => true
  end.

(** [var k] at the top of a script: the global exists from then on; a
    global that is already there keeps its value. *)
Definition declare (k : string) (w : list (string * js)) :=
  match get k w with
  | Some _ => w
  | None => set k Undefined w
  end.

(** [a.push(x)]: an array gets [x] appended; no other value of [js]
    has a [push] to call, and the call throws a TypeError ([None]). *)
Definition push (a x : js) : option js :=
  match a with
  | JArray items => Some (JArray (items ++ [x]))
  | _ => None
  end.

(** The five script elements of the deck, as served. *)
Definition deck_scripts : list script :=
  [{| src := Some "https://gnab.github.io/remark/downloads/remark-latest.min.js" |};
   {| src := None |};
   {| src := Some "remark.language.js" |};
   {| src := None |};
   {| src := None |}].

Definition deck : page := {| scripts := deck_scripts; window := [] |}.

Section WithRemark.
(** [None] when the remark script could not be loaded. *)
Variable remark : option remark_api.

(** The inline scripts are numbered by their place among the script
    elements: the second, the fourth and the fifth.  Each is a program
    of its own: an exception ends that script only.

    [var hljs = remark.highlighter.engine;]  Without remark the
    right-hand side throws, and the declared variable is left as it
    was. *)
Definition script_2 (p : page) : page :=
  let w := declare "hljs" (window p) in
  {| scripts := scripts p;
     window := match remark with
               | Some r => set "hljs" (engine r) w
               | None => w
               end |}.

(** [var slideshow = remark.create({...});] *)
Definition slideshow_options : js :=
  JObject [("highlightStyle", JStr "monokai");
           ("highlightLanguage", JStr "remark");
           ("highlightLines", JBool true)].

Definition script_4 (p : page) : page :=
  let w := declare "slideshow" (window p) in
  {| scripts := scripts p;
     window := match remark with
               | Some r => set "slideshow" (create r slideshow_options) w
               | None => w
               end |}.

(** The Google Analytics loader. *)
Definition ga_script : script :=
  {| src := Some "https://ssl.google-analytics.com/ga.js" |}.

(** [_gaq.push(x)] as a statement: the array that the global [_gaq]
    holds grows by [x]; [None] when there is nothing to push to. *)
Definition push_gaq (x : js) (w : list (string * js))
  : option (list (string * js)) :=
  match get "_gaq" w with
  | Some queue =>
      match push queue x with
      | Some queue' => Some (set "_gaq" queue' w)
      | None => None
      end
  | None => None
  end.

Definition script_5 (p : page) : page :=
  (* var _gaq = _gaq || []; *)
  let w := declare "_gaq" (window p) in
  let w :=
    match get "_gaq" w with
    | Some v => if truthy v then w else set "_gaq" (JArray []) w
    | None => w
    end in
  (* _gaq.push(['_setAccount', 'UA-1placeholder8-1']); *)
  match push_gaq (JArray [JStr "_setAccount"; JStr "UA-1placeholder8-1"]) w
  with
  | None => {| scripts := scripts p; window := w |}   (* the script ends *)
  | Some w =>
      (* _gaq.push(['_trackPageview']); *)
      match push_gaq (JArray [JStr "_trackPageview"]) w with
      | None => {| scripts := scripts p; window := w |}
      | Some w =>
          (* (function() { ... }()); *)
          let ga := ga_script in
          match scripts p with
          | s :: rest =>
              (* s.parentNode.insertBefore(ga, s); *)
              {| scripts := ga :: s :: rest; window := w |}
          | [] =>
              (* document.scripts[0] is undefined: the function throws *)
              {| scripts := []; window := w |}
          end
      end
  end.

(** Loading the page runs the inline scripts in document order. *)
Definition load (p : page) : page := script_5 (script_4 (script_2 p)).

End WithRemark.

End Slides.

(* ===================================================================== *)
(** * Example libraries *)
(* ===================================================================== *)

Module Samples.
Import Numpy Nibabel Py Kernel.

(** A resampled template of seven voxels in a row. *)
Definition template_img : image float :=
  {| dataobj :=
       {| shape := [7];
          elems := [Finite 0; Finite 0; Finite (19 # 2); Finite 10;
                    Finite 200; NaN; Finite 0] |};
     affine := [[Finite 3; Finite 0; Finite 0; Finite (-90)];
                [Finite 0; Finite 3; Finite 0; Finite (-126)];
                [Finite 0; Finite 0; Finite 3; Finite (-72)];
                [Finite 0; Finite 0; Finite 0; Finite 1]];
     hdr := {| data_dtype := float64;
               bitpix := 64;
               fields := [("intent_code", Finite 0);
                          ("scl_slope", Finite 1)] |} |}.

(** Dilation of a row of voxels by its two neighbours. *)
Fixpoint dilate_from (previous : bool) (l : list bool) : list bool :=
  match l with
  | [] => []
  | x :: r =>
      (previous || x || match r with y :: _ => y | [] => false end)
        :: dilate_from x r
  end.

Definition dilate_row (a : ndarray Z) : ndarray bool :=
  {| shape := shape a;
     elems := dilate_from false (map (fun z => negb (Z.eqb z 0)) (elems a)) |}.

(** An answer to every request; handles are numbered by the request,
    and the objects of the library do not compare equal to strings. *)
Definition answer_of (n : N) {X} (e : ext X) : X :=
  match e in ext X return X with
  | Import _ _ => n
  | Magic _ => tt
  | Display _ => tt
  | Call _ _ _ => n
  | GetAttr _ _ => n
  | GetItem _ _ => n
  | BinOp _ _ _ => n
  | Truth _ => false
  | ResampleToImg _ _ => template_img
  | MathImg _ _ => template_img
  | BinaryDilation a _ => dilate_row a
  end.

(** A working installation with the sample data in place. *)
Definition scanner : library := fun X n e => Returns (answer_of n e).

(** The same installation without the template files. *)
Definition no_templates : library :=
  fun X n e =>
    match e with
    | ResampleToImg _ _ | MathImg _ _ => Throws "ValueError" "File not found"
    | _ => Returns (answer_of n e)
    end.


(** The kernel state once the first four code cells of notebook 05b
    have run. *)
Definition ready : state :=
  match exec scanner (firstn 4 MVPA.cells) with
  | Ok st => st
  | Uncaught _ => init
  end.

(** The mask that [get_mask] builds from the sample template. *)
Definition template_mask : image Z :=
  set_data_dtype
    (Nifti1Image (astype_int8 (dilate_row (MVPA.binarize template_img)))
                 (affine template_img) (hdr template_img))
    int8.

End Samples.

(* ===================================================================== *)
(** * The train/test split of notebook 05b, on the arrays in memory *)
(* ===================================================================== *)

Module Split.
Import Py Arrays.

(** [np.invert(m)] for a boolean array. *)
Definition invert (m : list value) : list value :=
  map (fun v => match v with VBool b => VBool (negb b) | _ => v end) m.





End Split.

(* ===================================================================== *)
(** * Reading the answered requests of a run *)
(* ===================================================================== *)

Module Trace.
Import Nibabel Py Kernel.

(** The positional and the keyword arguments of a call. *)
Definition args_of (ev : event) : list value :=
  match ev with
  | Answered e _ =>
      match e with
      | Call _ args _ => args
      | _ => []
      end
  end.

Definition kwargs_of (ev : event) : list (string * value) :=
  match ev with
  | Answered e _ =>
      match e with
      | Call _ _ kwargs => kwargs
      | _ => []
      end
  end.

(** The values passed under the keyword [key]. *)
Definition kwarg (key : string) (ev : event) : list value :=
  map snd (filter (fun p => String.eqb (fst p) key) (kwargs_of ev)).

(** The integer masks among the arguments of a call. *)
Definition mask_of (v : value) : list (image Z) :=
  match v with
  | VMask m => [m]
  | _ => []
  end.

Definition mask_arguments (ev : event) : list (image Z) :=
  flat_map mask_of (args_of ev ++ map snd (kwargs_of ev)).

(** [obj] was made by calling the class [cls] imported from [module]. *)
Definition instance_of (module cls : string) (obj : handle)
           (tr : list event) : Prop :=
  exists h args kwargs,
    In (Answered (Import module (Some cls)) h) tr
    /\ In (Answered (Call (VObj h) args kwargs) obj) tr.

(** The run imports [f] from [module] and calls it with [v] under the
    keyword [key]. *)
Definition passes (module f key : string) (v : value) (tr : list event)
  : Prop :=
  exists h args kwargs r,
    In (Answered (Import module (Some f)) h) tr
    /\ In (Answered (Call (VObj h) args kwargs) r) tr
    /\ In (key, v) kwargs.

(** The second [build_path] call of notebook 04a: on the layout of the
    dataset at [root], with these entities and path patterns. *)
Definition builds_path (root entities patterns : value) (tr : list event)
  : Prop :=
  exists h layout m r,
    In (Answered (Import "bids" (Some "BIDSLayout")) h) tr
    /\ In (Answered (Call (VObj h) [root] []) layout) tr
    /\ In (Answered (GetAttr (VObj layout) "build_path") m) tr
    /\ In (Answered (Call (VObj m) [entities; patterns] []) r) tr.

(** The image that a resampling request names as its target, and the
    number of iterations that a dilation request asks for. *)
Definition resample_target (ev : event) : list value :=
  match ev with
  | Answered e _ =>
      match e with
      | ResampleToImg _ target => [target]
      | _ => []
      end
  end.

Definition dilation_iterations (ev : event) : list Z :=
  match ev with
  | Answered e _ =>
      match e with
      | BinaryDilation _ iterations => [iterations]
      | _ => []
      end
  end.

(** A mask of zeros and ones stored as int8. *)
Definition binary_mask (m : image Z) : Prop :=
  Forall (fun z => z = 0%Z \/ z = 1%Z) (Numpy.elems (dataobj m))
  /\ data_dtype (hdr m) = Numpy.int8.

(** The image operations among the answered requests, each with its
    arguments and the library's answer: additions by [math_img],
    resamplings and dilations. *)
Definition addition (ev : event)
  : list (string * list (string * value) * image Numpy.float) :=
  match ev with
  | Answered e x =>
      match e in ext X return X -> list _ with
      | MathImg formula imgs => fun sum => [(formula, imgs, sum)]
      | _ => fun _ => []
      end x
  end.

Definition resampling (ev : event)
  : list (value * value * image Numpy.float) :=
  match ev with
  | Answered e x =>
      match e in ext X return X -> list _ with
      | ResampleToImg source target => fun img => [(source, target, img)]
      | _ => fun _ => []
      end x
  end.

Definition dilation (ev : event)
  : list (Numpy.ndarray Z * Z * Numpy.ndarray bool) :=
  match ev with
  | Answered e x =>
      match e in ext X return X -> list _ with
      | BinaryDilation input iterations =>
          fun output => [(input, iterations, output)]
      | _ => fun _ => []
      end x
  end.

(** The image that [get_mask] has resampled, for each mask type: one
    of the two template files, or their sum as [math_img] returned it
    in the run [tr]. *)
Definition template_source (mask_type : value) (tr : list event)
           (source : value) : Prop :=
  (mask_type = VStr "brain"
   /\ flat_map addition tr = [] /\ source = MVPA.brain_template)
  \/ (mask_type = VStr "eyes"
      /\ flat_map addition tr = [] /\ source = MVPA.eyes_template)
  \/ (mask_type = VStr "both"
      /\ exists sum,
           flat_map addition tr
           = [("img1 + img2",
               [("img1", MVPA.brain_template); ("img2", MVPA.eyes_template)],
               sum)]
           /\ source = VImage sum).

(** The function of nilearn or scipy that a request calls, if it is
    one of the three that [get_mask] uses. *)
Definition image_function (r : request) : list string :=
  match r with
  | Asked _ e =>
      match e with
      | MathImg _ _ => ["math_img"]
      | ResampleToImg _ _ => ["resample_to_img"]
      | BinaryDilation _ _ => ["binary_dilation"]
      | _ => []
      end
  end.

End Trace.

(* ===================================================================== *)
(** * Kernel states part of the way through notebook 05b *)
(* ===================================================================== *)

Module Partial.
Import Py Kernel.

(** The imports and [get_mask] are in place, but the cell that sets
    [func] has not run. *)
Definition no_func : state :=
  match exec Samples.scanner [MVPA.cell_02; MVPA.cell_06] with
  | Ok st => st
  | Uncaught _ => init
  end.

(** The kernel state at the end of each notebook. *)
Definition final_05b : state :=
  match exec Samples.scanner MVPA.cells with
  | Ok st => st
  | Uncaught _ => init
  end.

Definition final_04a : state :=
  match exec Samples.scanner Pybids.cells with
  | Ok st => st
  | Uncaught _ => init
  end.

End Partial.

(* ===================================================================== *)
(** * The threshold of [get_mask] *)
(* ===================================================================== *)

Module Threshold.
Import Numpy Kernel.

(** The double [x] is at least the integer [k]; NaN is not. *)
Definition at_least (k : Z) (x : float) : Prop :=
  match x with
  | Finite q => (inject_Z k <= q)%Q
  | Inf negative => negative = false
  | NaN => False
  end.

(** What a library may be asked to dilate: a request for a dilation
    asks for one iteration on an array of zeros and ones. *)
Definition dilation_ok (r : request) : Prop :=
  match r with
  | Asked _ e =>
      match e with
      | BinaryDilation input iterations =>
          iterations = 1%Z
          /\ Forall (fun z => z = 0%Z \/ z = 1%Z) (elems input)
      | _ => True
      end
  end.

End Threshold.

(* ===================================================================== *)
(** * Leaving a cell out *)
(* ===================================================================== *)

Module Skip.
Import Py Kernel.

(** The cells of a notebook without the one at position [i]. *)
Definition without (i : nat) (cells : list (M unit)) : list (M unit) :=
  firstn i cells ++ skipn (S i) cells.

(** The computation raises [e] by itself, whatever external code
    answers. *)
Fixpoint raises {A} (e : exn) (p : prog A) : Prop :=
  match p with
  | Ret _ => False
  | Raise e' => e' = e
  | Request _ k => forall x, raises e (k x)
  end.

(** For each code cell of notebook 05b, in order: the first name found
    unbound when the cell is left out, if there is one. *)
Definition missing_05b : list (option string) :=
  [Some "np"; Some "func"; Some "get_mask"; Some "plot_roi"; Some "mask";
   Some "samples"; None; Some "masked_epi"; None; Some "labels";
   Some "chunks"; Some "clf"; Some "cv_scores"; None; None; None; None;
   None; None; None; None; Some "permutation_test_score";
   Some "null_cv_scores"; None; Some "mask_train"; Some "X_train";
   Some "decoder"; Some "y_pred"; Some "accuracy"; Some "coef_img"; None;
   Some "SearchLight"; None; None; Some "sphere_radius"; Some "sl"; None;
   Some "searchlight_img"; None; None].

(** The same for notebook 04a. *)
Definition missing_04a : list (option string) :=
  [Some "BIDSLayout"; Some "layout"; None; None; None; None; None; None;
   None; None; None; None; Some "bf"; None; None; None; None;
   Some "recfile"; None; None; None; None; None; None; Some "validator";
   None; None; None; None; None].

(** What leaving out cell [i] must lead to, by the table. *)
Definition outcome (table : list (option string)) (cells : list (M unit))
           (i : nat) : Prop :=
  match nth i table None with
  | Some x => raises (NameError x) (run (without i cells) init)
  | None => wp (fun _ => True) (run (without i cells) init)
  end.

End Skip.

(* ===================================================================== *)
(** * The analytics queue of the slide deck *)
(* ===================================================================== *)

Module Analytics.
Import Slides.

(** The two commands that the deck queues for Google Analytics. *)
Definition commands : list js :=
  [JArray [JStr "_setAccount"; JStr "UA-1placeholder8-1"];
   JArray [JStr "_trackPageview"]].


(** What the analytics script can queue its commands in: no [_gaq]
    yet or a falsy one (it makes a new array), or an array. *)
Definition usable_queue (v : option js) : bool :=
  match v with
  | None => true
  | Some (JArray _) => true
  | Some v => negb (truthy v)
  end.

(** What is queued already, and the script elements once the analytics
    script has been inserted before the first of them. *)
Definition queued (v : option js) : list js :=
  match v with
  | Some (JArray queue) => queue
  | _ => []
  end.

Definition inserted (l : list script) : list script :=
  match l with
  | [] => []
  | s :: rest => ga_script :: s :: rest
  end.

(** The value of a global once a script has declared it. *)
Definition declared_value (v : option js) : js :=
  match v with
  | Some x => x
  | None => Undefined
  end.

End Analytics.

(* ===================================================================== *)
(** * Facts about [labels] and [chunks] *)
(* ===================================================================== *)

Module ArraysFacts.
Import Py Arrays.

Example labels_head :
  firstn 9 labels =
  [VStr "closed"; VStr "closed"; VStr "closed"; VStr "closed";
   VStr "open"; VStr "open"; VStr "open"; VStr "open"; VStr "closed"].
Proof. reflexivity. Qed.

Example chunks_boundary :
  firstn 3 (skipn 63 chunks) = [VInt 0; VInt 1; VInt 1].
Proof. reflexivity. Qed.

(** C5: [labels] has 384 entries, 48 repetitions of the block of four
    'closed' and four 'open', hence 192 of each; [chunks] has 384
    entries, 64 copies of each of 0..5 in nondecreasing order; the two
    have equal length and every chunk value selects 32 'closed' and 32
    'open' labels. *)
Theorem labels_chunks_design :
  length labels = 384
  /\ labels = concat (repeat block 48)
  /\ count_str "closed" labels = 192
  /\ count_str "open" labels = 192
  /\ length chunks = 384
  /\ chunks = flat_map (fun i => repeat (VInt i) 64) (range 6)
  /\ (exists zs, ints_of chunks = Some zs /\ nondecreasing zs = true)
  /\ length labels = length chunks
  /\ (forall c, In c (range 6) ->
        exists sel, labels_of_chunk c = Some sel
                    /\ length sel = 64
                    /\ count_str "closed" sel = 32
                    /\ count_str "open" sel = 32).
Proof.
  split; [vm_compute; reflexivity |].
  split; [vm_compute; reflexivity |].
  split; [vm_compute; reflexivity |].
  split; [vm_compute; reflexivity |].
  split; [vm_compute; reflexivity |].
  split; [vm_compute; reflexivity |].
  split; [eexists; split; vm_compute; reflexivity |].
  split; [vm_compute; reflexivity |].
  intros c Hc. vm_compute in Hc.
  repeat (destruct Hc as [<- | Hc];
          [eexists; split; [vm_compute; reflexivity |];
           split; [vm_compute; reflexivity |];
           split; vm_compute; reflexivity |]).
  destruct Hc.
Qed.

End ArraysFacts.

(* ===================================================================== *)
(** * Facts about the interpreter *)
(* ===================================================================== *)

Module KernelFacts.
Import Py Kernel.

Lemma wp_weaken {A} (Q R : A -> Prop) (p : prog A) :
  (forall a, Q a -> R a) -> wp Q p -> wp R p.
Proof.
  intros HQR. induction p as [a | e | X e k IH]; simpl.
  - apply HQR.
  - trivial.
  - intros H x. apply IH, H.
Qed.

Lemma wp_pbind {A B} (Q : B -> Prop) (p : prog A) (f : A -> prog B) :
  wp Q (pbind p f) <-> wp (fun a => wp Q (f a)) p.
Proof.
  induction p as [a | e | X e k IH]; simpl.
  - tauto.
  - tauto.
  - split; intros H x; apply IH, H.
Qed.

Lemma interp_pbind {A B} lib (p : prog A) (f : A -> prog B) n :
  interp lib n (pbind p f) =
  match interp lib n p with
  | Ok (a, n') => interp lib n' (f a)
  | Uncaught e => Uncaught e
  end.
Proof.
  revert n. induction p as [a | e | X e k IH]; intros n; simpl.
  - reflexivity.
  - reflexivity.
  - destruct (lib X n e); [apply IH | reflexivity].
Qed.

(** A computation that cannot raise by itself ends well or with an
    exception that the library threw. *)
Lemma wp_interp {A} (Q : A -> Prop) (p : prog A) lib n :
  wp Q p ->
  match interp lib n p with
  | Ok (a, _) => Q a
  | Uncaught e => exists c m, e = External c m
  end.
Proof.
  revert n. induction p as [a | e | X e k IH]; intros n; simpl.
  - trivial.
  - intros [].
  - intros H. destruct (lib X n e) as [x | c m].
    + apply IH, H.
    + exists c, m. reflexivity.
Qed.

Lemma wp_never_throws {A} (Q : A -> Prop) (p : prog A) lib n :
  never_throws lib -> wp Q p ->
  exists a n', interp lib n p = Ok (a, n') /\ Q a.
Proof.
  intros Hlib. revert n.
  induction p as [a | e | X e k IH]; intros n; simpl.
  - intros H. exists a, n. split; [reflexivity | exact H].
  - intros [].
  - intros H. destruct (Hlib X n e) as [x Hx]. rewrite Hx.
    apply IH, H.
Qed.

Lemma wpt_history {A} (Q : list event -> A -> Prop) (p : prog A) lib :
  forall past n a n',
    wpt Q past p -> interp lib n p = Ok (a, n') ->
    Q (rev past ++ history lib n p) a.
Proof.
  induction p as [a0 | e | X e k IH]; intros past n a n'; simpl.
  - intros H E. injection E as <- _. rewrite app_nil_r. exact H.
  - intros [].
  - intros H E. destruct (lib X n e) as [x | c m]; [| discriminate].
    specialize (IH x (Answered e x :: past) (N.succ n) a n' (H x) E).
    simpl in IH. rewrite <- app_assoc in IH. exact IH.
Qed.

(** Every request before the end of a run was answered. *)
Lemma requests_returned {A} (p : prog A) lib :
  forall n r, interp lib n p = Ok r -> Forall (returned lib) (requests lib n p).
Proof.
  induction p as [a | e | X e k IH]; intros n r; simpl.
  - constructor.
  - discriminate.
  - destruct (lib X n e) as [x | c m] eqn:E; [| discriminate].
    intros H. constructor.
    + simpl. exists x. exact E.
    + apply (IH x _ _ H).
Qed.

(** A failed run of a computation that cannot raise by itself: the
    last request threw, and the run's exception is the one thrown. *)
Lemma requests_threw {A} (Q : A -> Prop) (p : prog A) lib :
  forall n e,
    wp Q p -> interp lib n p = Uncaught e ->
    exists rs r c m,
      requests lib n p = rs ++ [r]
      /\ Forall (returned lib) rs
      /\ threw lib c m r
      /\ e = External c m.
Proof.
  induction p as [a | e0 | X e0 k IH]; intros n e; simpl.
  - discriminate.
  - intros [].
  - intros H. destruct (lib X n e0) as [x | c m] eqn:E.
    + intros Hrun. destruct (IH x _ _ (H x) Hrun) as (rs & r & c & m & -> & Hrs & Hr & ->).
      exists (Asked n e0 :: rs), r, c, m. repeat split; trivial.
      constructor; [simpl; exists x; exact E | exact Hrs].
    + intros [= <-]. exists [], (Asked n e0), c, m.
      repeat split; [constructor | exact E].
Qed.

(** An exception thrown to any request of a run is the run's result:
    nothing in between catches it. *)
Lemma threw_propagates {A} (p : prog A) lib :
  forall n r c m,
    In r (requests lib n p) -> threw lib c m r ->
    interp lib n p = Uncaught (External c m).
Proof.
  induction p as [a | e0 | X e0 k IH]; intros n r c m; simpl.
  - intros [].
  - intros [].
  - intros [<- | Hin] Hr.
    + simpl in Hr. rewrite Hr. reflexivity.
    + destruct (lib X n e0) as [x | c' m']; [| destruct Hin].
      apply (IH x _ _ _ _ Hin Hr).
Qed.

Lemma wp_run_app {Q : unit * state -> Prop} (l1 l2 : list (M unit)) :
  forall st,
    wp Q (run (l1 ++ l2) st) ->
    wp (fun r => wp Q (run l2 (snd r))) (run l1 st).
Proof.
  induction l1 as [| c l1 IH]; intros st; simpl.
  - trivial.
  - unfold bind. rewrite !wp_pbind.
    apply wp_weaken. intros r. apply IH.
Qed.

Lemma interp_run_app lib (l1 l2 : list (M unit)) :
  forall st n,
    interp lib n (run (l1 ++ l2) st) =
    match interp lib n (run l1 st) with
    | Ok (r, n') => interp lib n' (run l2 (snd r))
    | Uncaught e => Uncaught e
    end.
Proof.
  induction l1 as [| c l1 IH]; intros st n; simpl.
  - reflexivity.
  - unfold bind. rewrite !interp_pbind.
    destruct (interp lib n (c st)) as [[r n'] | e]; [apply IH | reflexivity].
Qed.

(** When a notebook runs to the end, so does every prefix of it. *)
Lemma exec_prefix lib (cells : list (M unit)) st k :
  exec lib cells = Ok st ->
  exists st', exec lib (firstn k cells) = Ok st'.
Proof.
  unfold exec. rewrite <- (firstn_skipn k cells) at 1.
  rewrite interp_run_app.
  destruct (interp lib 0 (run (firstn k cells) init)) as [[[u st'] n'] | e].
  - intros _. exists st'. reflexivity.
  - discriminate.
Qed.

End KernelFacts.

(* ===================================================================== *)
(** * Facts about the array operations *)
(* ===================================================================== *)

Module NumpyFacts.
Import Numpy Nibabel Threshold.

Lemma int8_of_bool_range b : int8_of_bool b = 0%Z \/ int8_of_bool b = 1%Z.
Proof. destruct b; [right | left]; reflexivity. Qed.

Lemma astype_int8_binary (a : ndarray bool) :
  Forall (fun z => z = 0%Z \/ z = 1%Z) (elems (astype_int8 a)).
Proof.
  unfold astype_int8, map_elems. simpl.
  induction (elems a) as [| b l IH]; simpl; constructor.
  - apply int8_of_bool_range.
  - exact IH.
Qed.

Lemma array_int8_binary (a : ndarray bool) :
  Forall (fun z => z = 0%Z \/ z = 1%Z) (elems (array_int8 a)).
Proof. exact (astype_int8_binary a). Qed.

Lemma float_ge_at_least x k : float_ge x k = true <-> at_least k x.
Proof.
  destruct x as [q | [] |]; simpl.
  - apply Qle_bool_iff.
  - split; discriminate.
  - split; reflexivity.
  - split; [discriminate | intros []].
Qed.

(** The cast of a boolean array, entry by entry. *)
Lemma astype_int8_nth (a : ndarray bool) i b :
  nth_error (elems a) i = Some b ->
  nth_error (elems (astype_int8 a)) i = Some (if b then 1%Z else 0%Z).
Proof.
  intros H. unfold astype_int8, map_elems. simpl.
  rewrite nth_error_map, H. reflexivity.
Qed.

(** The thresholded image, entry by entry. *)
Lemma binarize_nth (img : image float) i x :
  nth_error (elems (dataobj img)) i = Some x ->
  (at_least 10 x -> nth_error (elems (MVPA.binarize img)) i = Some 1%Z)
  /\ (~ at_least 10 x -> nth_error (elems (MVPA.binarize img)) i = Some 0%Z).
Proof.
  intros Hx.
  unfold MVPA.binarize, array_int8, greater_equal, get_fdata, map_elems.
  simpl. rewrite map_map.
  rewrite (nth_error_map (fun x0 => int8_of_bool (float_ge x0 10)) i
                         (elems (dataobj img))), Hx. simpl.
  split.
  - intros H. apply float_ge_at_least in H. now rewrite H.
  - intros H. destruct (float_ge x 10) eqn:E; [| reflexivity].
    apply float_ge_at_least in E. contradiction.
Qed.

End NumpyFacts.

(* ===================================================================== *)
(** * Facts about [get_mask] *)
(* ===================================================================== *)

Module GetMaskFacts.
Import Numpy Nibabel Py Kernel MVPA NumpyFacts Threshold Trace.

Lemma valid_mask_type_cases v :
  valid_mask_type v = true <->
  eq_str v "brain" = true \/ eq_str v "eyes" = true \/ eq_str v "both" = true.
Proof.
  unfold valid_mask_type, mask_types. simpl.
  rewrite !orb_true_iff. intuition discriminate.
Qed.

Lemma invalid_mask_type_cases v :
  valid_mask_type v = false ->
  eq_str v "brain" = false /\ eq_str v "eyes" = false
  /\ eq_str v "both" = false.
Proof.
  unfold valid_mask_type, mask_types. simpl.
  rewrite !orb_false_iff. tauto.
Qed.

Lemma eq_str_inv v s : eq_str v s = true -> v = VStr s.
Proof.
  destruct v; simpl; try discriminate.
  intros H. apply String.eqb_eq in H. congruence.
Qed.

(** A valid mask type is one of the three strings. *)
Lemma valid_mask_type_inv v :
  valid_mask_type v = true ->
  v = VStr "brain" \/ v = VStr "eyes" \/ v = VStr "both".
Proof.
  intros H. apply valid_mask_type_cases in H.
  destruct H as [H | [H | H]]; apply eq_str_inv in H; tauto.
Qed.

(** Symbolic execution of a computation: unfolding, then case analysis
    on the lookups and on the library's answers. *)
Ltac exec_in H :=
  cbv beta iota zeta
      delta [bind pbind ret load load_local raise extern interp requests
             attr name resample_brain resample_eyes resample_both
             fst snd existsb builtins String.eqb Ascii.eqb Bool.eqb
             orb andb] in H.

Ltac exec_goal :=
  cbv beta iota zeta
      delta [bind pbind ret load load_local raise extern interp requests
             attr name resample_brain resample_eyes resample_both
             fst snd existsb builtins String.eqb Ascii.eqb Bool.eqb
             orb andb].

Ltac exec_all := exec_goal.

Ltac step_goal lib :=
  match goal with
  | |- context [dict_get ?k ?g] => destruct (dict_get k g); exec_goal
  | |- context [lib ?X ?n ?e] => destruct (lib X n e); exec_goal
  end.

(** The comparisons of [get_mask] with a string for argument. *)
Ltac with_string :=
  unfold get_mask, equals, builtin_type, eq_str;
  cbv beta iota zeta delta [bind pbind ret fst snd String.eqb Ascii.eqb
                            Bool.eqb].

(** The same, for goals about the image operations of a run. *)
Ltac exec_ops :=
  exec_goal;
  cbv beta iota zeta
      delta [history flat_map Trace.addition Trace.resampling Trace.dilation
             Trace.dilation_iterations Trace.resample_target
             Trace.image_function app].

Ltac step_ops lib :=
  match goal with
  | |- context [if ?b then _ else _] => is_var b; destruct b; exec_ops
  | |- context [dict_get ?k ?g] => destruct (dict_get k g); exec_ops
  | |- context [lib ?X ?n ?e] => destruct (lib X n e); exec_ops
  end.

(** What a returning call of [get_mask] with one of the three strings
    has done: one resampling, of the template that goes with the
    string, to [func]; one dilation, by one iteration, of the binarized
    answer; and the mask is built from the answer to the dilation. *)
Lemma get_mask_ok lib n st v r st' n' :
  valid_mask_type v = true ->
  interp lib n (get_mask v st) = Ok (r, st', n') ->
  exists source target img dilated,
    dict_get "func" (globals st) = Some target
    /\ template_source v (history lib n (get_mask v st)) source
    /\ flat_map resampling (history lib n (get_mask v st))
       = [(source, target, img)]
    /\ flat_map dilation (history lib n (get_mask v st))
       = [(binarize img, 1%Z, dilated)]
    /\ r = VMask (set_data_dtype
                    (Nifti1Image (astype_int8 dilated) (affine img) (hdr img))
                    int8)
    /\ st' = st.
Proof.
  intros Hv. apply valid_mask_type_inv in Hv as [-> | [-> | ->]].
  all: with_string; exec_ops.
  all: repeat step_ops lib.
  all: intros H; try discriminate H.
  all: injection H as <- <- <-.
  all: do 4 eexists.
  all: split; [reflexivity |].
  all: split;
    [unfold template_source;
     first [ left; repeat split; reflexivity
           | right; left; repeat split; reflexivity
           | right; right; split; [reflexivity |];
             eexists; split; reflexivity ] |].
  all: repeat split; reflexivity.
Qed.

(** One request in the goal, answered by a library that never throws. *)
Ltac answer lib Hlib :=
  match goal with
  | |- context [lib ?X ?n ?e] =>
      let x := fresh "x" in
      let E := fresh "E" in
      destruct (Hlib X n e) as [x E]; rewrite E; exec_goal
  end.

Lemma bound_lookup name st :
  bound name st = true -> exists v, dict_get name (globals st) = Some v.
Proof.
  unfold bound. destruct (dict_get name (globals st)) as [v |].
  - intros _. exists v. reflexivity.
  - discriminate.
Qed.


Lemma binary_mask_built (dilated : ndarray bool) aff h :
  binary_mask (set_data_dtype (Nifti1Image (astype_int8 dilated) aff h) int8).
Proof. split; [apply astype_int8_binary | reflexivity]. Qed.



Example invalid_string_run :
  interp Samples.scanner 9 (get_mask (VStr "cortex") Samples.ready)
  = Uncaught (UnboundLocalError "img_resampled").
Proof. vm_compute. reflexivity. Qed.


(** C7: for each of the three mask types, the image that [get_mask]
    returns is the template chosen by the mask type, resampled by the
    library to [func], binarized, dilated once by the library and
    stored as int8.  Entry by entry: the array handed to the dilation
    is 1 where the resampled voxel is at least 10 and 0 elsewhere; the
    mask is 1 where the dilation answered true and 0 elsewhere, so it
    holds zeros and ones only.  The mask has the affine and the
    descriptive header fields of the resampled template; its header
    names int8 as data type, with 8 bits per voxel. *)
Theorem get_mask_binary_mask lib n st mask_type r st' n' :
  valid_mask_type mask_type = true ->
  interp lib n (get_mask mask_type st) = Ok (r, st', n') ->
  exists mask source target img input dilated,
    r = VMask mask
    /\ dict_get "func" (globals st) = Some target
    /\ template_source mask_type
                       (history lib n (get_mask mask_type st)) source
    /\ flat_map resampling (history lib n (get_mask mask_type st))
       = [(source, target, img)]
    /\ flat_map dilation (history lib n (get_mask mask_type st))
       = [(input, 1%Z, dilated)]
    /\ shape input = shape (dataobj img)
    /\ length (elems input) = length (elems (dataobj img))
    /\ (forall i x,
           nth_error (elems (dataobj img)) i = Some x ->
           (at_least 10 x -> nth_error (elems input) i = Some 1%Z)
           /\ (~ at_least 10 x -> nth_error (elems input) i = Some 0%Z))
    /\ shape (dataobj mask) = shape dilated
    /\ length (elems (dataobj mask)) = length (elems dilated)
    /\ (forall i b,
           nth_error (elems dilated) i = Some b ->
           nth_error (elems (dataobj mask)) i
           = Some (if b then 1%Z else 0%Z))
    /\ Forall (fun z => z = 0%Z \/ z = 1%Z) (elems (dataobj mask))
    /\ data_dtype (hdr mask) = int8
    /\ bitpix (hdr mask) = 8%Z
    /\ fields (hdr mask) = fields (hdr img)
    /\ affine mask = affine img.
Proof.
  intros Hv H.
  apply (get_mask_ok lib n st mask_type r st' n' Hv) in H
    as (source & target & img & dilated
        & Hfunc & Hsrc & Himg & Hdil & -> & _).
  eexists _, source, target, img, (binarize img), dilated.
  split; [reflexivity |].
  do 4 (split; [assumption |]).
  split; [reflexivity |].
  split; [unfold binarize, array_int8, greater_equal, get_fdata, map_elems;
          simpl; now rewrite !length_map |].
  split; [intros i x; apply binarize_nth |].
  split; [reflexivity |].
  split; [unfold astype_int8, map_elems; simpl; now rewrite length_map |].
  split; [intros i b; apply astype_int8_nth |].
  split; [apply astype_int8_binary |].
  repeat split.
Qed.

Lemma get_mask_binary_mask_witness :
  exists mask source target img input dilated,
    VMask Samples.template_mask = VMask mask
    /\ dict_get "func" (globals Samples.ready) = Some target
    /\ template_source
         (VStr "eyes")
         (history Samples.scanner 9 (get_mask (VStr "eyes") Samples.ready))
         source
    /\ flat_map resampling
                (history Samples.scanner 9
                         (get_mask (VStr "eyes") Samples.ready))
       = [(source, target, img)]
    /\ flat_map dilation
                (history Samples.scanner 9
                         (get_mask (VStr "eyes") Samples.ready))
       = [(input, 1%Z, dilated)]
    /\ shape input = shape (dataobj img)
    /\ length (elems input) = length (elems (dataobj img))
    /\ (forall i x,
           nth_error (elems (dataobj img)) i = Some x ->
           (at_least 10 x -> nth_error (elems input) i = Some 1%Z)
           /\ (~ at_least 10 x -> nth_error (elems input) i = Some 0%Z))
    /\ shape (dataobj mask) = shape dilated
    /\ length (elems (dataobj mask)) = length (elems dilated)
    /\ (forall i b,
           nth_error (elems dilated) i = Some b ->
           nth_error (elems (dataobj mask)) i
           = Some (if b then 1%Z else 0%Z))
    /\ Forall (fun z => z = 0%Z \/ z = 1%Z) (elems (dataobj mask))
    /\ data_dtype (hdr mask) = int8
    /\ bitpix (hdr mask) = 8%Z
    /\ fields (hdr mask) = fields (hdr img)
    /\ affine mask = affine img.
Proof.
  apply (get_mask_binary_mask Samples.scanner 9 Samples.ready (VStr "eyes")
                              (VMask Samples.template_mask)
                              Samples.ready 15%N).
  - reflexivity.
  - vm_compute. reflexivity.
Defined.

(** The sample template has the voxels 0, 0, 9.5, 10, 200, NaN, 0: the
    threshold keeps the fourth and the fifth, the dilation of the row
    adds their neighbours. *)
Example sample_mask_voxels :
  exists mask,
    interp Samples.scanner 9 (get_mask (VStr "brain") Samples.ready)
    = Ok (VMask mask, Samples.ready, 15%N)
    /\ elems (binarize Samples.template_img) = [0; 0; 0; 1; 1; 0; 0]%Z
    /\ elems (dataobj mask) = [0; 0; 1; 1; 1; 1; 0]%Z
    /\ hdr mask = {| data_dtype := int8; bitpix := 8;
                     fields := fields (hdr Samples.template_img) |}.
Proof.
  exists Samples.template_mask.
  split; [vm_compute; reflexivity |].
  split; [vm_compute; reflexivity |].
  split; vm_compute; reflexivity.
Qed.

End GetMaskFacts.
(* ===================================================================== *)
(** * Facts about the runs of the two notebooks *)
(* ===================================================================== *)

Module NotebookFacts.
Import Numpy Nibabel Py Kernel KernelFacts Workshop.

(** Notebook 05b cannot raise by itself, and calls [get_mask] three
    times, each time with 'both'. *)
Lemma mvpa_wp :
  wp (fun r => MVPA.get_mask_arguments (snd r) = [both; both; both])
     (run MVPA.cells init).
Proof. vm_compute. intros. reflexivity. Qed.

(** Notebook 04a cannot raise by itself. *)
Lemma pybids_wp : wp (fun _ => True) (run Pybids.cells init).
Proof. vm_compute. intros. exact I. Qed.

(** The position in a trace of the import of [name] from [module], and
    of the first call of the object [h]. *)
Ltac import_position module name tr i :=
  lazymatch tr with
  | Answered (Import module (Some name)) _ :: _ => i
  | _ :: ?rest => import_position module name rest (S i)
  end.

Ltac call_position h tr i :=
  lazymatch tr with
  | Answered (Call (VObj h) _ _) _ :: _ => i
  | _ :: ?rest => call_position h rest (S i)
  end.

Ltac find_calls_imported :=
  lazymatch goal with
  | |- calls_imported ?module ?name ?tr =>
      let i := import_position module name tr O in
      lazymatch eval cbv in (nth_error tr i) with
      | Some (Answered _ ?h) =>
          let j := call_position h tr O in
          unfold calls_imported; do 4 eexists;
          split; [apply (nth_error_In _ i) | apply (nth_error_In _ j)];
          reflexivity
      end
  end.

Lemma mvpa_operations :
  wpt (fun tr _ =>
         calls_imported "nilearn.input_data" "NiftiMasker" tr
         /\ calls_imported "sklearn.model_selection" "cross_val_score" tr
         /\ calls_imported "nilearn.decoding" "SearchLight" tr)
      [] (run MVPA.cells init).
Proof.
  cbv -[calls_imported]. intros.
  repeat split; find_calls_imported.
Qed.

Lemma pybids_operations :
  wpt (fun tr _ => calls_imported "bids" "BIDSLayout" tr)
      [] (run Pybids.cells init).
Proof.
  cbv -[calls_imported]. intros.
  find_calls_imported.
Qed.

Lemma exec_ok_inv lib cells st :
  exec lib cells = Ok st ->
  exists n, interp lib 0 (run cells init) = Ok (tt, st, n).
Proof.
  unfold exec.
  destruct (interp lib 0 (run cells init)) as [[[[] st0] n] | e].
  - intros [= ->]. exists n. reflexivity.
  - discriminate.
Qed.

Lemma exec_uncaught_inv lib cells e :
  exec lib cells = Uncaught e ->
  interp lib 0 (run cells init) = Uncaught e.
Proof.
  unfold exec.
  destruct (interp lib 0 (run cells init)) as [[[u st0] n] | e0].
  - discriminate.
  - intros [= ->]. reflexivity.
Qed.

Lemma never_throws_exec lib cells (Q : unit * state -> Prop) :
  never_throws lib -> wp Q (run cells init) ->
  exists st, exec lib cells = Ok st /\ Q (tt, st).
Proof.
  intros Hlib Hwp.
  destruct (wp_never_throws Q (run cells init) lib 0 Hlib Hwp)
    as ([[] st] & n & Hrun & HQ).
  exists st. unfold exec. rewrite Hrun. split; [reflexivity | exact HQ].
Qed.

(** C1: against a library that answers every request, every cell of
    both notebooks completes, in order, without an exception; notebook
    05b calls [get_mask] with 'both' only, a valid mask type, so the
    branch that leaves [img_resampled] unassigned is not reached. *)
Theorem notebooks_complete lib :
  never_throws lib ->
  (forall k, exists st, exec lib (firstn k MVPA.cells) = Ok st)
  /\ (forall k, exists st, exec lib (firstn k Pybids.cells) = Ok st)
  /\ exists st,
      exec lib MVPA.cells = Ok st
      /\ MVPA.get_mask_arguments st = [both; both; both]
      /\ Forall (fun args =>
                   exists mask_type,
                     args = [mask_type]
                     /\ MVPA.valid_mask_type mask_type = true)
                (MVPA.get_mask_arguments st).
Proof.
  intros Hlib.
  destruct (never_throws_exec lib MVPA.cells _ Hlib mvpa_wp)
    as (st & Hrun & Hargs).
  destruct (never_throws_exec lib Pybids.cells _ Hlib pybids_wp)
    as (st2 & Hrun2 & _).
  split; [| split].
  - intros k. exact (exec_prefix lib MVPA.cells st k Hrun).
  - intros k. exact (exec_prefix lib Pybids.cells st2 k Hrun2).
  - exists st. split; [exact Hrun |]. split; [exact Hargs |].
    simpl in Hargs. rewrite Hargs.
    repeat constructor; exists (VStr "both"); split; reflexivity.
Qed.

Lemma notebooks_complete_witness :
  (forall k, exists st, exec Samples.scanner (firstn k MVPA.cells) = Ok st)
  /\ (forall k,
         exists st, exec Samples.scanner (firstn k Pybids.cells) = Ok st)
  /\ exists st,
      exec Samples.scanner MVPA.cells = Ok st
      /\ MVPA.get_mask_arguments st = [both; both; both]
      /\ Forall (fun args =>
                   exists mask_type,
                     args = [mask_type]
                     /\ MVPA.valid_mask_type mask_type = true)
                (MVPA.get_mask_arguments st).
Proof.
  apply (notebooks_complete Samples.scanner).
  intros X n e. eexists. reflexivity.
Defined.

Lemma notebooks_wp cells :
  In cells notebooks -> wp (fun _ => True) (run cells init).
Proof.
  intros [<- | [<- | []]].
  - apply (wp_weaken _ _ _ (fun _ _ => I) mvpa_wp).
  - exact pybids_wp.
Qed.

(** C3: nothing in the notebooks catches: a run that fails ends with
    the exception that the library threw to its last request, all
    earlier requests having been answered; and an exception thrown to
    any request of a run is the result of the run.  No failure of a run
    is raised by the notebooks' own code. *)
Theorem failures_are_external lib cells :
  In cells notebooks ->
  (forall e,
      exec lib cells = Uncaught e ->
      exists rs r c m,
        requests lib 0 (run cells init) = rs ++ [r]
        /\ Forall (returned lib) rs
        /\ threw lib c m r
        /\ e = External c m)
  /\ (forall r c m,
         In r (requests lib 0 (run cells init)) ->
         threw lib c m r ->
         exec lib cells = Uncaught (External c m)).
Proof.
  intros Hin. split.
  - intros e Hrun. apply exec_uncaught_inv in Hrun.
    exact (requests_threw _ _ lib 0 e (notebooks_wp cells Hin) Hrun).
  - intros r c m Hr Hthrew. unfold exec.
    rewrite (threw_propagates _ lib 0 r c m Hr Hthrew). reflexivity.
Qed.

Example no_templates_run :
  exec Samples.no_templates MVPA.cells
  = Uncaught (External "ValueError" "File not found").
Proof. vm_compute. reflexivity. Qed.

Lemma failures_are_external_witness :
  In MVPA.cells notebooks
  /\ (exists rs r c m,
         requests Samples.no_templates 0 (run MVPA.cells init) = rs ++ [r]
         /\ Forall (returned Samples.no_templates) rs
         /\ threw Samples.no_templates c m r
         /\ External "ValueError" "File not found" = External c m)
  /\ exec Samples.no_templates MVPA.cells
     = Uncaught (External "ValueError" "File not found").
Proof.
  split; [left; reflexivity |].
  destruct (failures_are_external Samples.no_templates MVPA.cells)
    as [Hlast Hany]; [left; reflexivity |].
  split.
  - apply Hlast. vm_compute. reflexivity.
  - apply (Hany (Asked 9 (MathImg "img1 + img2"
                                  [("img1", MVPA.brain_template);
                                   ("img2", MVPA.eyes_template)]))).
    + apply (nth_error_In _ 9). vm_compute. reflexivity.
    + reflexivity.
Defined.

(** X18: in a complete run of notebook 05b the masker, the
    cross-validation and the searchlight are objects that the run has
    imported from nilearn and scikit-learn and then called; in a
    complete run of notebook 04a the same holds of the BIDS layout. *)
Theorem interesting_operations_are_library_calls lib :
  (forall st,
      exec lib MVPA.cells = Ok st ->
      calls_imported "nilearn.input_data" "NiftiMasker"
                     (history lib 0 (run MVPA.cells init))
      /\ calls_imported "sklearn.model_selection" "cross_val_score"
                        (history lib 0 (run MVPA.cells init))
      /\ calls_imported "nilearn.decoding" "SearchLight"
                        (history lib 0 (run MVPA.cells init)))
  /\ (forall st,
         exec lib Pybids.cells = Ok st ->
         calls_imported "bids" "BIDSLayout"
                        (history lib 0 (run Pybids.cells init))).
Proof.
  split.
  - intros st Hrun. apply exec_ok_inv in Hrun as [n Hrun].
    exact (wpt_history _ _ lib [] 0 _ _ mvpa_operations Hrun).
  - intros st Hrun. apply exec_ok_inv in Hrun as [n Hrun].
    exact (wpt_history _ _ lib [] 0 _ _ pybids_operations Hrun).
Qed.

Lemma interesting_operations_are_library_calls_witness :
  (calls_imported "nilearn.input_data" "NiftiMasker"
                  (history Samples.scanner 0 (run MVPA.cells init))
   /\ calls_imported "sklearn.model_selection" "cross_val_score"
                     (history Samples.scanner 0 (run MVPA.cells init))
   /\ calls_imported "nilearn.decoding" "SearchLight"
                     (history Samples.scanner 0 (run MVPA.cells init)))
  /\ calls_imported "bids" "BIDSLayout"
                    (history Samples.scanner 0 (run Pybids.cells init)).
Proof.
  destruct (interesting_operations_are_library_calls Samples.scanner)
    as (H1 & H2).
  split.
  - apply (H1 Partial.final_05b). vm_compute. reflexivity.
  - apply (H2 Partial.final_04a). vm_compute. reflexivity.
Defined.

End NotebookFacts.

(* ===================================================================== *)
(** * More on [get_mask]: failing early, side effects *)
(* ===================================================================== *)

Module GetMaskMore.
Import Numpy Nibabel Py Kernel MVPA NumpyFacts GetMaskFacts Trace.

(** X1: an argument of a built-in type other than the three strings
    makes [get_mask] fail before any template is read: all that the
    call asks for is the attribute [array] of [np], and not even that
    when [np] is unbound. *)
Theorem get_mask_invalid_reads_no_template lib n st mask_type :
  builtin_type mask_type = true ->
  valid_mask_type mask_type = false ->
  requests lib n (get_mask mask_type st)
  = match dict_get "np" (globals st) with
    | Some np => [Asked n (GetAttr np "array")]
    | None => []
    end.
Proof.
  intros Hb Hv. apply invalid_mask_type_cases in Hv as (Eb & Ee & Eo).
  unfold get_mask, equals. rewrite Hb, Eb, Ee, Eo. exec_goal.
  destruct (dict_get "np" (globals st)) as [np |]; exec_goal.
  - destruct (lib _ n (GetAttr np "array")); reflexivity.
  - reflexivity.
Qed.

Lemma get_mask_invalid_reads_no_template_witness :
  requests Samples.no_templates 9 (get_mask (VInt 3) Samples.ready)
  = match dict_get "np" (globals Samples.ready) with
    | Some np => [Asked 9 (GetAttr np "array")]
    | None => []
    end.
Proof.
  apply (get_mask_invalid_reads_no_template Samples.no_templates 9
                                            Samples.ready (VInt 3));
    reflexivity.
Defined.

(** X2: [get_mask] reads the global [func].  Called for a valid mask
    type while [func] is unbound it raises NameError: for 'brain' and
    'eyes' before any request, for 'both' after [math_img] has already
    added the two templates. *)
Theorem get_mask_needs_func lib n st mask_type :
  valid_mask_type mask_type = true ->
  bound "resample_to_img" st = true ->
  bound "math_img" st = true ->
  bound "func" st = false ->
  (eq_str mask_type "both" = false ->
   interp lib n (get_mask mask_type st) = Uncaught (NameError "func")
   /\ requests lib n (get_mask mask_type st) = [])
  /\ (eq_str mask_type "both" = true ->
      forall img_roi,
        lib _ n (MathImg "img1 + img2"
                         [("img1", brain_template); ("img2", eyes_template)])
        = Returns img_roi ->
        interp lib n (get_mask mask_type st) = Uncaught (NameError "func")
        /\ requests lib n (get_mask mask_type st)
           = [Asked n (MathImg "img1 + img2"
                               [("img1", brain_template);
                                ("img2", eyes_template)])]).
Proof.
  intros Hv H1 H2 H3.
  apply bound_lookup in H1 as [v1 G1], H2 as [v2 G2].
  unfold bound in H3.
  destruct (dict_get "func" (globals st)) eqn:G3; [discriminate |].
  apply valid_mask_type_inv in Hv as [-> | [-> | ->]].
  - split; [intros _ | intros E; discriminate E].
    with_string; exec_goal; rewrite G1; exec_goal; rewrite G3; exec_goal.
    split; reflexivity.
  - split; [intros _ | intros E; discriminate E].
    with_string; exec_goal; rewrite G1; exec_goal; rewrite G3; exec_goal.
    split; reflexivity.
  - split; [intros E; discriminate E | intros _ img_roi Hroi].
    with_string; exec_goal; rewrite G2; exec_goal.
    rewrite Hroi; exec_goal.
    rewrite G1; exec_goal; rewrite G3; exec_goal.
    split; reflexivity.
Qed.

Lemma get_mask_needs_func_witness :
  (interp Samples.scanner 7 (get_mask (VStr "eyes") Partial.no_func)
   = Uncaught (NameError "func")
   /\ requests Samples.scanner 7 (get_mask (VStr "eyes") Partial.no_func) = [])
  /\ (interp Samples.scanner 7 (get_mask (VStr "both") Partial.no_func)
      = Uncaught (NameError "func")
      /\ requests Samples.scanner 7 (get_mask (VStr "both") Partial.no_func)
         = [Asked 7 (MathImg "img1 + img2"
                             [("img1", brain_template);
                              ("img2", eyes_template)])]).
Proof.
  split.
  - apply (get_mask_needs_func Samples.scanner 7 Partial.no_func
                               (VStr "eyes")); reflexivity.
  - apply (get_mask_needs_func Samples.scanner 7 Partial.no_func
                               (VStr "both") eq_refl eq_refl eq_refl eq_refl
             ) with (img_roi := Samples.template_img); reflexivity.
Defined.

(** Case analysis on everything that decides a run of [get_mask]: the
    class of the argument, the comparisons, the lookups and the
    library's answers. *)
Ltac by_cases lib v :=
  unfold get_mask, equals;
  destruct (builtin_type v);
  [destruct (eq_str v "brain");
   [| destruct (eq_str v "eyes"); [| destruct (eq_str v "both")]] |];
  exec_ops; repeat step_ops lib.

(** X3: a call of [get_mask] that returns, whatever its argument, has
    bound no global name and recorded no call; of the image functions
    of nilearn and scipy it has called [resample_to_img] and then
    [binary_dilation], each once, after [math_img] when it took the
    branch for 'both'. *)
Theorem get_mask_leaves_state lib n st mask_type r st' n' :
  interp lib n (get_mask mask_type st) = Ok (r, st', n') ->
  st' = st
  /\ (flat_map image_function (requests lib n (get_mask mask_type st))
      = ["resample_to_img"; "binary_dilation"]
      \/ flat_map image_function (requests lib n (get_mask mask_type st))
         = ["math_img"; "resample_to_img"; "binary_dilation"]).
Proof.
  revert r st' n'. by_cases lib mask_type.
  all: intros r st' n' H; try discriminate H.
  all: injection H as <- <- <-.
  all: split; [reflexivity |].
  all: first [left; reflexivity | right; reflexivity].
Qed.

Lemma get_mask_leaves_state_witness :
  Samples.ready = Samples.ready
  /\ (flat_map image_function
               (requests Samples.scanner 9
                         (get_mask (VStr "both") Samples.ready))
      = ["resample_to_img"; "binary_dilation"]
      \/ flat_map image_function
                  (requests Samples.scanner 9
                            (get_mask (VStr "both") Samples.ready))
         = ["math_img"; "resample_to_img"; "binary_dilation"]).
Proof.
  apply (get_mask_leaves_state Samples.scanner 9 Samples.ready (VStr "both")
                               (VMask Samples.template_mask)
                               Samples.ready 16%N).
  vm_compute. reflexivity.
Defined.

End GetMaskMore.

(* ===================================================================== *)
(** * The threshold and the dilation requests of [get_mask] *)
(* ===================================================================== *)

Module ThresholdFacts.
Import Numpy Nibabel Py Kernel MVPA NumpyFacts GetMaskFacts GetMaskMore.
Import Threshold.

(** X4: the binarized template has the shape of the resampled image;
    its entry is 1 where the voxel is at least 10 and 0 elsewhere; a NaN
    voxel gives 0. *)
Theorem binarize_threshold (img : image float) :
  shape (MVPA.binarize img) = shape (dataobj img)
  /\ length (elems (MVPA.binarize img)) = length (elems (dataobj img))
  /\ forall i x,
      nth_error (elems (dataobj img)) i = Some x ->
      (at_least 10 x -> nth_error (elems (MVPA.binarize img)) i = Some 1%Z)
      /\ (~ at_least 10 x ->
          nth_error (elems (MVPA.binarize img)) i = Some 0%Z)
      /\ (x = NaN -> nth_error (elems (MVPA.binarize img)) i = Some 0%Z).
Proof.
  split; [reflexivity |].
  split.
  - unfold MVPA.binarize, array_int8, greater_equal, get_fdata, map_elems.
    simpl. now rewrite !length_map.
  - intros i x Hx. destruct (binarize_nth img i x Hx) as [Hge Hlt].
    repeat split; [exact Hge | exact Hlt |].
    intros ->. apply Hlt. intros [].
Qed.

Lemma binarize_threshold_witness :
  nth_error (elems (MVPA.binarize Samples.template_img)) 4 = Some 1%Z
  /\ nth_error (elems (MVPA.binarize Samples.template_img)) 2 = Some 0%Z
  /\ nth_error (elems (MVPA.binarize Samples.template_img)) 5 = Some 0%Z.
Proof.
  destruct (binarize_threshold Samples.template_img) as (_ & _ & H).
  split; [| split].
  - destruct (H 4 (Finite 200) eq_refl) as (Hge & _ & _).
    apply Hge. vm_compute. discriminate.
  - destruct (H 2 (Finite (19 # 2)) eq_refl) as (_ & Hlt & _).
    apply Hlt. vm_compute. intros Hle. apply Hle. reflexivity.
  - destruct (H 5 NaN eq_refl) as (_ & _ & Hnan).
    apply Hnan. reflexivity.
Defined.

(** X5: whatever the mask type, the state and the library's answers,
    every dilation that [get_mask] requests is one iteration on an array
    of zeros and ones. *)
Theorem get_mask_dilates_binary lib n st mask_type :
  Forall dilation_ok (requests lib n (get_mask mask_type st)).
Proof.
  by_cases lib mask_type.
  all: repeat constructor; apply array_int8_binary.
Qed.

End ThresholdFacts.
(* ===================================================================== *)
(** * The train/test split and the chunks *)
(* ===================================================================== *)

Module SplitFacts.
Import Py Arrays Split.

Lemma take_mask_some (a m : list value) :
  length a = length m ->
  take_mask a m
  = Some (map fst (filter (fun p => truth (snd p)) (combine a m))).
Proof.
  intros H. unfold take_mask. rewrite H, Nat.eqb_refl. reflexivity.
Qed.

Lemma length_equal_int a k : length (equal_int a k) = length a.
Proof. apply length_map. Qed.

Lemma length_invert m : length (invert m) = length m.
Proof. apply length_map. Qed.

Lemma split_permutation (a ch : list value) (c : Z) :
  length a = length ch ->
  Permutation
    (map fst (filter (fun p => truth (snd p))
                     (combine a (invert (equal_int ch c))))
     ++ map fst (filter (fun p => truth (snd p))
                        (combine a (equal_int ch c))))
    a.
Proof.
  revert ch. induction a as [| x a IH]; intros [| y ch] Hlen;
    try discriminate; simpl.
  - constructor.
  - injection Hlen as Hlen. specialize (IH ch Hlen).
    destruct (eq_int y c); simpl.
    + apply Permutation_sym, Permutation_cons_app, Permutation_sym, IH.
    + constructor. exact IH.
Qed.

(** X6: holding out the volumes of one chunk ([chunks == c]) and
    training on the inverted mask splits any array of the same length
    into two parts that together hold every entry exactly once. *)
Theorem split_partitions (a ch : list value) (c : Z) :
  length a = length ch ->
  exists train test,
    take_mask a (invert (equal_int ch c)) = Some train
    /\ take_mask a (equal_int ch c) = Some test
    /\ Permutation (train ++ test) a
    /\ length train + length test = length a.
Proof.
  intros Hlen.
  eexists. eexists.
  split; [apply take_mask_some;
          now rewrite length_invert, length_equal_int |].
  split; [apply take_mask_some; now rewrite length_equal_int |].
  pose proof (split_permutation a ch c Hlen) as HP.
  split; [exact HP |].
  rewrite <- length_app. apply Permutation_length, HP.
Qed.

Lemma split_partitions_witness :
  exists train test,
    take_mask labels (invert (equal_int chunks 5)) = Some train
    /\ take_mask labels (equal_int chunks 5) = Some test
    /\ Permutation (train ++ test) labels
    /\ length train + length test = length labels.
Proof.
  apply (split_partitions labels chunks 5).
  reflexivity.
Defined.


(** X8: every chunk is made of eight whole blocks of four 'closed' and
    four 'open' volumes: no block is divided between two chunks. *)
Theorem chunks_hold_whole_blocks c :
  In c (range 6) ->
  labels_of_chunk c = Some (concat (repeat block 8)).
Proof.
  intros Hc. vm_compute in Hc.
  repeat (destruct Hc as [<- | Hc]; [vm_compute; reflexivity |]).
  destruct Hc.
Qed.

Lemma chunks_hold_whole_blocks_witness :
  labels_of_chunk 3 = Some (concat (repeat block 8)).
Proof.
  apply (chunks_hold_whole_blocks 3).
  vm_compute. tauto.
Defined.

End SplitFacts.

(* ===================================================================== *)
(** * What the notebooks hand to the libraries *)
(* ===================================================================== *)

Module TraceFacts.
Import Numpy Nibabel Py Kernel KernelFacts NotebookFacts Trace.

(** The position in a trace of the event with answer [x]. *)
Ltac answer_position x tr i :=
  lazymatch tr with
  | Answered _ x :: _ => i
  | _ :: ?rest => answer_position x rest (S i)
  end.

Ltac at_position i := apply (nth_error_In _ i); reflexivity.

(** Proves [instance_of module cls obj tr] by following [obj] back to
    the call that made it and to the import of the class. *)
Ltac find_instance :=
  lazymatch goal with
  | |- instance_of _ _ ?obj ?tr =>
      let j := answer_position obj tr O in
      lazymatch eval cbv in (nth_error tr j) with
      | Some (Answered (Call (VObj ?h) _ _) _) =>
          let i := answer_position h tr O in
          unfold instance_of; do 3 eexists;
          split; [at_position i | at_position j]
      end
  end.

(** The position of the call that gets [v] under the keyword [key]. *)
Ltac keyword_position key v tr i :=
  lazymatch tr with
  | Answered (Call _ _ ?kw) _ :: ?rest =>
      lazymatch kw with
      | context [(key, v)] => i
      | _ => keyword_position key v rest (S i)
      end
  | _ :: ?rest => keyword_position key v rest (S i)
  end.

Ltac find_passes :=
  lazymatch goal with
  | |- passes _ _ ?key ?v ?tr =>
      let j := keyword_position key v tr O in
      lazymatch eval cbv in (nth_error tr j) with
      | Some (Answered (Call (VObj ?h) _ _) _) =>
          let i := answer_position h tr O in
          unfold passes; do 4 eexists;
          split; [at_position i |];
          split; [at_position j |];
          simpl; tauto
      end
  end.

Lemma mvpa_n_jobs :
  wpt (fun tr _ =>
         flat_map (kwarg "n_jobs") tr
         = [VInt (-1); VInt 1; VInt (-1); VInt (-1); VInt (-1)])
      [] (run MVPA.cells init).
Proof. vm_compute. intros. reflexivity. Qed.

Lemma mvpa_masks :
  wpt (fun tr _ =>
         length (flat_map mask_arguments tr) = 5
         /\ Forall binary_mask (flat_map mask_arguments tr))
      [] (run MVPA.cells init).
Proof.
  cbv -[binary_mask astype_int8]. intros.
  split; [reflexivity |].
  repeat constructor; apply NumpyFacts.astype_int8_binary.
Qed.

Lemma mvpa_estimators :
  wpt (fun tr _ =>
         exists a b c d e,
           flat_map (kwarg "estimator") tr
           = [VObj a; VObj b; VObj c; VObj d; VObj e]
           /\ instance_of "sklearn.svm" "LinearSVC" a tr
           /\ instance_of "sklearn.naive_bayes" "GaussianNB" b tr
           /\ instance_of "sklearn.linear_model" "LogisticRegression" c tr
           /\ instance_of "sklearn.naive_bayes" "GaussianNB" d tr
           /\ instance_of "sklearn.naive_bayes" "GaussianNB" e tr
           /\ passes "sklearn.model_selection" "cross_val_score"
                     "estimator" (VObj a) tr
           /\ passes "sklearn.model_selection" "cross_val_score"
                     "estimator" (VObj b) tr
           /\ passes "sklearn.model_selection" "cross_val_score"
                     "estimator" (VObj c) tr
           /\ passes "sklearn.model_selection" "permutation_test_score"
                     "estimator" (VObj d) tr
           /\ passes "nilearn.decoding" "SearchLight"
                     "estimator" (VObj e) tr)
      [] (run MVPA.cells init).
Proof.
  cbv -[instance_of passes]. intros.
  do 5 eexists. split; [reflexivity |].
  repeat split; first [find_instance | find_passes].
Qed.

Lemma pybids_build_path :
  wpt (fun tr _ =>
         builds_path
           (VStr "/data/ds000114/")
           (VDict [(VStr "subject", VStr "01"); (VStr "run", VInt 2);
                   (VStr "task", VStr "n-back"); (VStr "suffix", VStr "z")])
           (VTuple [VStr "sub-{subject}[_ses-{session}]_task-{task}[_acq-{acquisition}][_rec-{reconstruction}][_run-{run}][_echo-{echo}]_{suffix<z>}.nii.gz"])
           tr)
      [] (run Pybids.cells init).
Proof.
  cbv -[builds_path]. intros.
  lazymatch goal with
  | |- builds_path _ _ _ ?tr =>
      lazymatch tr with
      | context [Answered (Call (VObj ?m) [_; VTuple _] _) ?r] =>
          let l := answer_position r tr O in
          let k := answer_position m tr O in
          lazymatch eval cbv in (nth_error tr k) with
          | Some (Answered (GetAttr (VObj ?layout) _) _) =>
              let j := answer_position layout tr O in
              lazymatch eval cbv in (nth_error tr j) with
              | Some (Answered (Call (VObj ?h) _ _) _) =>
                  let i := answer_position h tr O in
                  unfold builds_path; do 4 eexists;
                  split; [at_position i |];
                  split; [at_position j |];
                  split; [at_position k | at_position l]
              end
          end
      end
  end.
Qed.

Lemma mvpa_resampling :
  wpt (fun tr _ =>
         flat_map resample_target tr
         = repeat (VStr "/home/neuro/workshop/notebooks/data/dataset_ML.nii.gz")
                  3
         /\ flat_map dilation_iterations tr = [1; 1; 1]%Z)
      [] (run MVPA.cells init).
Proof. vm_compute. intros. split; reflexivity. Qed.

(** X9: in a complete run of notebook 05b exactly five calls carry the
    keyword [n_jobs], with the values -1, 1, -1, -1, -1 in order. *)
Theorem n_jobs_values lib st :
  exec lib MVPA.cells = Ok st ->
  flat_map (kwarg "n_jobs") (history lib 0 (run MVPA.cells init))
  = [VInt (-1); VInt 1; VInt (-1); VInt (-1); VInt (-1)].
Proof.
  intros Hrun. apply exec_ok_inv in Hrun as [n Hrun].
  exact (wpt_history _ _ lib [] 0 _ _ mvpa_n_jobs Hrun).
Qed.

Lemma n_jobs_values_witness :
  flat_map (kwarg "n_jobs") (history Samples.scanner 0 (run MVPA.cells init))
  = [VInt (-1); VInt 1; VInt (-1); VInt (-1); VInt (-1)].
Proof.
  apply (n_jobs_values Samples.scanner Partial.final_05b).
  vm_compute. reflexivity.
Defined.

(** X10: in a complete run of notebook 05b the libraries are handed a
    NIfTI mask five times; each is a mask of zeros and ones with data
    type int8, as [get_mask] builds it. *)
Theorem masks_handed_over lib st :
  exec lib MVPA.cells = Ok st ->
  length (flat_map mask_arguments (history lib 0 (run MVPA.cells init))) = 5
  /\ Forall binary_mask
            (flat_map mask_arguments (history lib 0 (run MVPA.cells init))).
Proof.
  intros Hrun. apply exec_ok_inv in Hrun as [n Hrun].
  exact (wpt_history _ _ lib [] 0 _ _ mvpa_masks Hrun).
Qed.

Lemma masks_handed_over_witness :
  length (flat_map mask_arguments
                   (history Samples.scanner 0 (run MVPA.cells init))) = 5
  /\ Forall binary_mask
            (flat_map mask_arguments
                      (history Samples.scanner 0 (run MVPA.cells init))).
Proof.
  apply (masks_handed_over Samples.scanner Partial.final_05b).
  vm_compute. reflexivity.
Defined.

(** X11: the five calls of notebook 05b that take an [estimator] get, in
    order: a LinearSVC, a GaussianNB and a LogisticRegression, each
    passed to cross_val_score; a GaussianNB passed to
    permutation_test_score; and a GaussianNB passed to SearchLight. *)
Theorem estimators_in_order lib st :
  exec lib MVPA.cells = Ok st ->
  exists a b c d e,
    flat_map (kwarg "estimator") (history lib 0 (run MVPA.cells init))
    = [VObj a; VObj b; VObj c; VObj d; VObj e]
    /\ instance_of "sklearn.svm" "LinearSVC" a
                   (history lib 0 (run MVPA.cells init))
    /\ instance_of "sklearn.naive_bayes" "GaussianNB" b
                   (history lib 0 (run MVPA.cells init))
    /\ instance_of "sklearn.linear_model" "LogisticRegression" c
                   (history lib 0 (run MVPA.cells init))
    /\ instance_of "sklearn.naive_bayes" "GaussianNB" d
                   (history lib 0 (run MVPA.cells init))
    /\ instance_of "sklearn.naive_bayes" "GaussianNB" e
                   (history lib 0 (run MVPA.cells init))
    /\ passes "sklearn.model_selection" "cross_val_score"
              "estimator" (VObj a) (history lib 0 (run MVPA.cells init))
    /\ passes "sklearn.model_selection" "cross_val_score"
              "estimator" (VObj b) (history lib 0 (run MVPA.cells init))
    /\ passes "sklearn.model_selection" "cross_val_score"
              "estimator" (VObj c) (history lib 0 (run MVPA.cells init))
    /\ passes "sklearn.model_selection" "permutation_test_score"
              "estimator" (VObj d) (history lib 0 (run MVPA.cells init))
    /\ passes "nilearn.decoding" "SearchLight"
              "estimator" (VObj e) (history lib 0 (run MVPA.cells init)).
Proof.
  intros Hrun. apply exec_ok_inv in Hrun as [n Hrun].
  exact (wpt_history _ _ lib [] 0 _ _ mvpa_estimators Hrun).
Qed.

Lemma estimators_in_order_witness :
  exists a b c d e,
    flat_map (kwarg "estimator")
             (history Samples.scanner 0 (run MVPA.cells init))
    = [VObj a; VObj b; VObj c; VObj d; VObj e]
    /\ instance_of "sklearn.svm" "LinearSVC" a
                   (history Samples.scanner 0 (run MVPA.cells init))
    /\ instance_of "sklearn.naive_bayes" "GaussianNB" b
                   (history Samples.scanner 0 (run MVPA.cells init))
    /\ instance_of "sklearn.linear_model" "LogisticRegression" c
                   (history Samples.scanner 0 (run MVPA.cells init))
    /\ instance_of "sklearn.naive_bayes" "GaussianNB" d
                   (history Samples.scanner 0 (run MVPA.cells init))
    /\ instance_of "sklearn.naive_bayes" "GaussianNB" e
                   (history Samples.scanner 0 (run MVPA.cells init))
    /\ passes "sklearn.model_selection" "cross_val_score"
              "estimator" (VObj a)
              (history Samples.scanner 0 (run MVPA.cells init))
    /\ passes "sklearn.model_selection" "cross_val_score"
              "estimator" (VObj b)
              (history Samples.scanner 0 (run MVPA.cells init))
    /\ passes "sklearn.model_selection" "cross_val_score"
              "estimator" (VObj c)
              (history Samples.scanner 0 (run MVPA.cells init))
    /\ passes "sklearn.model_selection" "permutation_test_score"
              "estimator" (VObj d)
              (history Samples.scanner 0 (run MVPA.cells init))
    /\ passes "nilearn.decoding" "SearchLight"
              "estimator" (VObj e)
              (history Samples.scanner 0 (run MVPA.cells init)).
Proof.
  apply (estimators_in_order Samples.scanner Partial.final_05b).
  vm_compute. reflexivity.
Defined.

(** X12: the second [build_path] call of notebook 04a goes to the layout
    of /data/ds000114/ (not to the second layout), with the entities of
    its own cell and, because of the comma that ends the assignment, a
    one-element tuple of patterns instead of a string. *)
Theorem build_path_arguments lib st :
  exec lib Pybids.cells = Ok st ->
  builds_path
    (VStr "/data/ds000114/")
    (VDict [(VStr "subject", VStr "01"); (VStr "run", VInt 2);
            (VStr "task", VStr "n-back"); (VStr "suffix", VStr "z")])
    (VTuple [VStr "sub-{subject}[_ses-{session}]_task-{task}[_acq-{acquisition}][_rec-{reconstruction}][_run-{run}][_echo-{echo}]_{suffix<z>}.nii.gz"])
    (history lib 0 (run Pybids.cells init)).
Proof.
  intros Hrun. apply exec_ok_inv in Hrun as [n Hrun].
  exact (wpt_history _ _ lib [] 0 _ _ pybids_build_path Hrun).
Qed.

Lemma build_path_arguments_witness :
  builds_path
    (VStr "/data/ds000114/")
    (VDict [(VStr "subject", VStr "01"); (VStr "run", VInt 2);
            (VStr "task", VStr "n-back"); (VStr "suffix", VStr "z")])
    (VTuple [VStr "sub-{subject}[_ses-{session}]_task-{task}[_acq-{acquisition}][_rec-{reconstruction}][_run-{run}][_echo-{echo}]_{suffix<z>}.nii.gz"])
    (history Samples.scanner 0 (run Pybids.cells init)).
Proof.
  apply (build_path_arguments Samples.scanner Partial.final_04a).
  vm_compute. reflexivity.
Defined.

(** X17: [get_mask] keeps nothing between calls: in a complete run of
    notebook 05b each of its three calls has the template resampled
    again, every time to the dataset file that cell 4 names in [func],
    and dilated again, by one iteration. *)
Theorem masks_are_rebuilt lib st :
  exec lib MVPA.cells = Ok st ->
  flat_map resample_target (history lib 0 (run MVPA.cells init))
  = repeat (VStr "/home/neuro/workshop/notebooks/data/dataset_ML.nii.gz") 3
  /\ flat_map dilation_iterations (history lib 0 (run MVPA.cells init))
     = [1; 1; 1]%Z.
Proof.
  intros Hrun. apply exec_ok_inv in Hrun as [n Hrun].
  exact (wpt_history _ _ lib [] 0 _ _ mvpa_resampling Hrun).
Qed.

Lemma masks_are_rebuilt_witness :
  flat_map resample_target (history Samples.scanner 0 (run MVPA.cells init))
  = repeat (VStr "/home/neuro/workshop/notebooks/data/dataset_ML.nii.gz") 3
  /\ flat_map dilation_iterations
              (history Samples.scanner 0 (run MVPA.cells init))
     = [1; 1; 1]%Z.
Proof.
  apply (masks_are_rebuilt Samples.scanner Partial.final_05b).
  vm_compute. reflexivity.
Defined.

End TraceFacts.

(* ===================================================================== *)
(** * Leaving a cell out *)
(* ===================================================================== *)

Module SkipFacts.
Import Py Kernel KernelFacts Skip.

Lemma raises_interp {A} (e : exn) (p : prog A) lib :
  never_throws lib -> forall n, raises e p -> interp lib n p = Uncaught e.
Proof.
  intros Hlib. induction p as [a | e' | X e' k IH]; intros n; simpl.
  - intros [].
  - intros ->. reflexivity.
  - intros H. destruct (Hlib X n e') as [x Hx]. rewrite Hx.
    apply IH, H.
Qed.

Lemma outcome_exec table cells i lib :
  never_throws lib ->
  outcome table cells i ->
  match nth i table None with
  | Some x => exec lib (without i cells) = Uncaught (NameError x)
  | None => exists st, exec lib (without i cells) = Ok st
  end.
Proof.
  intros Hlib. unfold outcome, exec.
  destruct (nth i table None) as [x |].
  - intros H. rewrite (raises_interp _ _ lib Hlib 0 H). reflexivity.
  - intros H.
    destruct (wp_never_throws _ _ lib 0 Hlib H) as ([[] st] & n & -> & _).
    exists st. reflexivity.
Qed.

Ltac check_row := vm_compute; intros; first [reflexivity | exact I].

Lemma table_05b i : i < 40 -> outcome missing_05b MVPA.cells i.
Proof.
  intros Hi.
  do 40 (destruct i as [| i]; [check_row |]).
  lia.
Qed.

Lemma table_04a i : i < 30 -> outcome missing_04a Pybids.cells i.
Proof.
  intros Hi.
  do 30 (destruct i as [| i]; [check_row |]).
  lia.
Qed.

(** X13: notebook 05b run with one code cell left out, against a library
    that answers every request: the run either completes or stops on a
    NameError for a name that the missing cell would have bound, the
    one listed in [missing_05b]. *)
Theorem skipping_a_cell_05b lib i :
  never_throws lib ->
  i < 40 ->
  match nth i missing_05b None with
  | Some x => exec lib (without i MVPA.cells) = Uncaught (NameError x)
  | None => exists st, exec lib (without i MVPA.cells) = Ok st
  end.
Proof.
  intros Hlib Hi.
  exact (outcome_exec missing_05b MVPA.cells i lib Hlib (table_05b i Hi)).
Qed.

Lemma skipping_a_cell_05b_witness :
  exec Samples.scanner (without 2 MVPA.cells)
  = Uncaught (NameError "get_mask").
Proof.
  apply (skipping_a_cell_05b Samples.scanner 2).
  - intros X n e. eexists. reflexivity.
  - lia.
Defined.

(** X14: the same for notebook 04a: only the cells that bind
    [BIDSLayout], [layout], [bf], [recfile] and [validator] are needed
    by later cells. *)
Theorem skipping_a_cell_04a lib i :
  never_throws lib ->
  i < 30 ->
  match nth i missing_04a None with
  | Some x => exec lib (without i Pybids.cells) = Uncaught (NameError x)
  | None => exists st, exec lib (without i Pybids.cells) = Ok st
  end.
Proof.
  intros Hlib Hi.
  exact (outcome_exec missing_04a Pybids.cells i lib Hlib (table_04a i Hi)).
Qed.

Lemma skipping_a_cell_04a_witness :
  exec Samples.scanner (without 12 Pybids.cells)
  = Uncaught (NameError "bf").
Proof.
  apply (skipping_a_cell_04a Samples.scanner 12).
  - intros X n e. eexists. reflexivity.
  - lia.
Defined.

End SkipFacts.

(* ===================================================================== *)
(** * The slide deck on any page *)
(* ===================================================================== *)

Module AnalyticsFacts.
Import Slides Analytics.

Lemma get_set_same k v w : get k (set k v w) = Some v.
Proof.
  induction w as [| [k' v'] w IH]; simpl.
  - now rewrite String.eqb_refl.
  - destruct (String.eqb k k') eqn:E; simpl.
    + now rewrite String.eqb_refl.
    + rewrite E. exact IH.
Qed.

Lemma get_set_other k k' v w : k <> k' -> get k (set k' v w) = get k w.
Proof.
  intros Hne. apply String.eqb_neq in Hne.
  induction w as [| [k0 v0] w IH]; simpl.
  - now rewrite Hne.
  - destruct (String.eqb k' k0) eqn:E; simpl.
    + apply String.eqb_eq in E. subst k0. now rewrite Hne.
    + destruct (String.eqb k k0); [reflexivity | exact IH].
Qed.

Lemma get_declare_same k w :
  get k (declare k w) = Some (declared_value (get k w)).
Proof.
  unfold declare. destruct (get k w) as [v |] eqn:E.
  - exact E.
  - apply get_set_same.
Qed.

Lemma get_declare_other k k' w : k <> k' -> get k (declare k' w) = get k w.
Proof.
  intros Hne. unfold declare. destruct (get k' w).
  - reflexivity.
  - now apply get_set_other.
Qed.

(** The globals after the second and the fourth script. *)
Lemma get_after_remark remark p k :
  k <> "hljs" -> k <> "slideshow" ->
  get k (window (script_4 remark (script_2 remark p))) = get k (window p).
Proof.
  intros H1 H2. unfold script_4, script_2. simpl.
  destruct remark as [api |];
    rewrite ?get_set_other, ?get_declare_other by assumption;
    rewrite ?get_set_other, ?get_declare_other by assumption;
    reflexivity.
Qed.

Lemma scripts_after_remark remark p :
  scripts (script_4 remark (script_2 remark p)) = scripts p.
Proof. reflexivity. Qed.

(** The analytics script, by what [_gaq] holds when it starts. *)
Lemma script_5_fresh q :
  get "_gaq" (window q) = None \/
  (exists v, get "_gaq" (window q) = Some v /\ truthy v = false) ->
  get "_gaq" (window (script_5 q)) = Some (JArray commands)
  /\ scripts (script_5 q) = inserted (scripts q)
  /\ forall k, k <> "_gaq" ->
               get k (window (script_5 q)) = get k (window q).
Proof.
  intros H. unfold script_5, push_gaq.
  assert (E : get "_gaq"
                  match get "_gaq" (declare "_gaq" (window q)) with
                  | Some v =>
                      if truthy v then declare "_gaq" (window q)
                      else set "_gaq" (JArray []) (declare "_gaq" (window q))
                  | None => declare "_gaq" (window q)
                  end = Some (JArray [])).
  { rewrite get_declare_same.
    destruct H as [-> | (v & -> & Hv)]; simpl; [| rewrite Hv];
      apply get_set_same. }
  rewrite E. simpl. rewrite get_set_same. simpl.
  assert (Hother : forall k, k <> "_gaq" ->
            get k match get "_gaq" (declare "_gaq" (window q)) with
                  | Some v =>
                      if truthy v then declare "_gaq" (window q)
                      else set "_gaq" (JArray []) (declare "_gaq" (window q))
                  | None => declare "_gaq" (window q)
                  end = get k (window q)).
  { intros k Hk. rewrite get_declare_same.
    destruct H as [-> | (v & -> & Hv)]; simpl; [| rewrite Hv];
      rewrite get_set_other, get_declare_other by assumption; reflexivity. }
  destruct (scripts q) as [| s rest]; simpl.
  - split; [apply get_set_same |]. split; [reflexivity |].
    intros k Hk. rewrite !get_set_other by assumption. now apply Hother.
  - split; [apply get_set_same |]. split; [reflexivity |].
    intros k Hk. rewrite !get_set_other by assumption. now apply Hother.
Qed.

Lemma script_5_array q queue :
  get "_gaq" (window q) = Some (JArray queue) ->
  get "_gaq" (window (script_5 q)) = Some (JArray (queue ++ commands))
  /\ scripts (script_5 q) = inserted (scripts q)
  /\ forall k, k <> "_gaq" ->
               get k (window (script_5 q)) = get k (window q).
Proof.
  intros H. unfold script_5, push_gaq, declare.
  repeat (rewrite H; simpl). rewrite get_set_same. simpl.
  rewrite <- app_assoc. simpl.
  destruct (scripts q) as [| s rest]; simpl.
  - split; [apply get_set_same |]. split; [reflexivity |].
    intros k Hk. now rewrite !get_set_other by assumption.
  - split; [apply get_set_same |]. split; [reflexivity |].
    intros k Hk. now rewrite !get_set_other by assumption.
Qed.

Lemma script_5_stuck q v :
  get "_gaq" (window q) = Some v ->
  truthy v = true ->
  (forall queue, v <> JArray queue) ->
  script_5 q = q.
Proof.
  intros H Hv Hna. unfold script_5, push_gaq, declare.
  repeat first [rewrite H | rewrite Hv | progress simpl].
  destruct v; simpl; try (destruct q; reflexivity).
  exfalso. exact (Hna _ eq_refl).
Qed.

Lemma usable_queue_cases v :
  usable_queue v = true ->
  v = None \/ (exists x, v = Some x /\ truthy x = false)
  \/ exists queue, v = Some (JArray queue).
Proof.
  intros H. destruct v as [x |]; [| now left].
  destruct (truthy x) eqn:T;
    [| right; left; exists x; split; [reflexivity | exact T]].
  right; right.
  destruct x; simpl in H, T; try (rewrite T in H); try discriminate.
  eexists. reflexivity.
Qed.

Lemma unusable_queue_cases v :
  usable_queue v = false ->
  exists x, v = Some x /\ truthy x = true /\ forall queue, x <> JArray queue.
Proof.
  intros H. destruct v as [x |]; [| discriminate].
  exists x. split; [reflexivity |].
  destruct (truthy x) eqn:T.
  - split; [reflexivity |]. intros queue ->. discriminate.
  - destruct x; simpl in H, T; try (rewrite T in H); discriminate.
Qed.

(** The three cases together. *)
Lemma script_5_spec q :
  (forall k, k <> "_gaq" -> get k (window (script_5 q)) = get k (window q))
  /\ if usable_queue (get "_gaq" (window q))
     then scripts (script_5 q) = inserted (scripts q)
          /\ get "_gaq" (window (script_5 q))
             = Some (JArray (queued (get "_gaq" (window q)) ++ commands))
     else script_5 q = q.
Proof.
  destruct (usable_queue (get "_gaq" (window q))) eqn:U.
  - apply usable_queue_cases in U as [U | [(x & U & Hx) | (queue & U)]].
    + destruct (script_5_fresh q (or_introl U)) as (H1 & H2 & H3).
      rewrite U. simpl. tauto.
    + destruct (script_5_fresh q (or_intror (ex_intro _ x (conj U Hx))))
        as (H1 & H2 & H3).
      rewrite U. destruct x; simpl in Hx |- *; try discriminate; tauto.
    + destruct (script_5_array q queue U) as (H1 & H2 & H3).
      rewrite U. simpl. tauto.
  - apply unusable_queue_cases in U as (x & U & Hx & Hna).
    rewrite (script_5_stuck q x U Hx Hna). tauto.
Qed.

(** X15: loading the deck keeps what is already queued in [_gaq]: on a
    page whose [_gaq] is an array, the queue after loading is the old
    queue followed by the two commands; without a queue, or with a
    falsy one, it is the two commands alone. *)
Theorem load_extends_queue remark p :
  (forall queue,
      get "_gaq" (window p) = Some (JArray queue) ->
      get "_gaq" (window (load remark p)) = Some (JArray (queue ++ commands)))
  /\ (get "_gaq" (window p) = None ->
      get "_gaq" (window (load remark p)) = Some (JArray commands))
  /\ (forall v,
         get "_gaq" (window p) = Some v -> truthy v = false ->
         get "_gaq" (window (load remark p)) = Some (JArray commands)).
Proof.
  assert (Hpre : get "_gaq" (window (script_4 remark (script_2 remark p)))
                 = get "_gaq" (window p)).
  { apply get_after_remark; discriminate. }
  unfold load.
  split; [| split].
  - intros queue H. apply script_5_array. now rewrite Hpre.
  - intros H. apply script_5_fresh. left. now rewrite Hpre.
  - intros v H Hv. apply script_5_fresh. right. exists v.
    split; [now rewrite Hpre | exact Hv].
Qed.

Lemma load_extends_queue_witness :
  get "_gaq"
      (window (load None
                    {| scripts := deck_scripts;
                       window := [("_gaq",
                                   JArray [JArray [JStr "_setCustomVar"]])] |}))
  = Some (JArray ([JArray [JStr "_setCustomVar"]] ++ commands))
  /\ get "_gaq" (window (load None deck)) = Some (JArray commands)
  /\ get "_gaq"
         (window (load None {| scripts := deck_scripts;
                               window := [("_gaq", Undefined)] |}))
     = Some (JArray commands).
Proof.
  split; [| split].
  - apply (load_extends_queue
             None
             {| scripts := deck_scripts;
                window := [("_gaq",
                            JArray [JArray [JStr "_setCustomVar"]])] |}).
    reflexivity.
  - apply (load_extends_queue None deck). reflexivity.
  - apply (load_extends_queue
             None {| scripts := deck_scripts;
                     window := [("_gaq", Undefined)] |})
      with (v := Undefined); reflexivity.
Defined.



(** X19: each script element is a program of its own.  When remark.js
    has not loaded, the second and the fourth script throw: [hljs] and
    [slideshow] are declared but keep the value they had, undefined if
    none; the analytics script runs all the same, with the result it
    has when remark is there.  With remark loaded, [hljs] is remark's
    highlighting engine and [slideshow] what [remark.create] returned
    for the three options. *)
Theorem load_without_remark p :
  get "hljs" (window (load None p))
  = Some (declared_value (get "hljs" (window p)))
  /\ get "slideshow" (window (load None p))
     = Some (declared_value (get "slideshow" (window p)))
  /\ forall api,
      scripts (load None p) = scripts (load (Some api) p)
      /\ get "_gaq" (window (load None p))
         = get "_gaq" (window (load (Some api) p))
      /\ get "hljs" (window (load (Some api) p)) = Some (engine api)
      /\ get "slideshow" (window (load (Some api) p))
         = Some (create api slideshow_options).
Proof.
  assert (Hgaq : forall remark,
             get "_gaq" (window (script_4 remark (script_2 remark p)))
             = get "_gaq" (window p)).
  { intros remark. apply get_after_remark; discriminate. }
  assert (Hload : forall remark,
             (forall k, k <> "_gaq" ->
                        get k (window (load remark p))
                        = get k (window (script_4 remark (script_2 remark p))))
             /\ if usable_queue (get "_gaq" (window p))
                then scripts (load remark p) = inserted (scripts p)
                     /\ get "_gaq" (window (load remark p))
                        = Some (JArray (queued (get "_gaq" (window p))
                                        ++ commands))
                else scripts (load remark p) = scripts p
                     /\ get "_gaq" (window (load remark p))
                        = get "_gaq" (window p)).
  { intros remark. unfold load.
    destruct (script_5_spec (script_4 remark (script_2 remark p)))
      as [Hother Hcase].
    split; [exact Hother |].
    rewrite Hgaq, (scripts_after_remark remark p) in Hcase.
    destruct (usable_queue (get "_gaq" (window p))); [exact Hcase |].
    rewrite Hcase. split; [apply scripts_after_remark | apply Hgaq]. }
  split; [| split].
  - destruct (Hload None) as [Hother _].
    rewrite Hother by discriminate. simpl.
    rewrite get_declare_other by discriminate. apply get_declare_same.
  - destruct (Hload None) as [Hother _].
    rewrite Hother by discriminate. simpl.
    rewrite get_declare_same, get_declare_other by discriminate.
    reflexivity.
  - intros api.
    destruct (Hload None) as [_ Hnone].
    destruct (Hload (Some api)) as [Hother Hsome].
    split; [| split; [| split]].
    + destruct (usable_queue (get "_gaq" (window p)));
        destruct Hnone as [-> _], Hsome as [-> _]; reflexivity.
    + destruct (usable_queue (get "_gaq" (window p)));
        destruct Hnone as [_ ->], Hsome as [_ ->]; reflexivity.
    + rewrite Hother by discriminate. simpl.
      rewrite get_set_other by discriminate.
      rewrite get_declare_other by discriminate. apply get_set_same.
    + rewrite Hother by discriminate. simpl. apply get_set_same.
Qed.

End AnalyticsFacts.
